(** * WebSocket connection manager and rate limiter of the AAR system API

    A shallow embedding of [src/websockets.py] (class [WebSocketManager]) and
    of [check_rate_limit] from [src/main.py], with the properties the
    specification states about them.

    Modelling choices.
    - Python [float] is IEEE binary64: the kernel's primitive floats, so the
      constants ([PHI], [0.618], [0.1]) and the arithmetic are the code's own.
    - A Python [dict] iterates in insertion order: an association list with
      string keys ([PyDict]); the rate limiter's table, whose order is never
      observed, is a [gmap].
    - The methods are coroutines.  [connect], [disconnect],
      [send_personal_message] and [broadcast] are the runs in which every
      [await] returns before another coroutine touches the manager, and [run]
      is a sequence of such calls.  The two places where another coroutine
      changes what the method does next, the [await websocket.accept()]
      between the test of the limit and the registration, and the
      [await websocket.send_json] inside the loop over the registry, are cut
      open in [connect_begin], [connect_resume] and [broadcast_live].
    - What the outside world answers (does [accept], [send_json] or [close]
      raise, what [client_state] reads, what [time.time()] returns) is an
      oracle [Env]; what the manager does to the outside world is recorded in
      a trace of [Event]s.  The clock readings are arbitrary floats: nothing
      assumes that [time.time()] is monotone. *)

From Stdlib Require Import ZArith Floats Uint63 String List Bool Lia.
From stdpp Require Import base list gmap strings.

Local Open Scope string_scope.
#[local] Set Warnings "-inexact-float,-register-all".

(** ** Python dictionaries with string keys *)

Module PyDict.

Definition dict (V : Type) : Type := list (string * V).

Section Ops.
Context {V : Type}.

(** [d.get(k)] / [d[k]] *)
Fixpoint get (k : string) (d : dict V) : option V :=
  match d with
  | [] => None
  | (k', v) :: d' => if String.eqb k k' then Some v else get k d'
  end.

(** [k in d] *)
Definition contains (k : string) (d : dict V) : bool :=
  match get k d with Some _ => true | None => false end.

(** [d[k] = v]: an existing key keeps its position, a new key goes last. *)
Fixpoint set (k : string) (v : V) (d : dict V) : dict V :=
  match d with
  | [] => [(k, v)]
  | (k', v') :: d' =>
      if String.eqb k k' then (k, v) :: d' else (k', v') :: set k v d'
  end.

(** [del d[k]] (only ever called on a key that is present). *)
Definition del (k : string) (d : dict V) : dict V :=
  List.filter (fun kv => negb (String.eqb k (fst kv))) d.

Definition keys (d : dict V) : list string := List.map fst d.

(** [{**d, k1: v1, ..., kn: vn}] *)
Definition update (d : dict V) (kvs : list (string * V)) : dict V :=
  fold_left (fun acc kv => set (fst kv) (snd kv) acc) kvs d.

(** A dict display [{k1: v1, ..., kn: vn}]. *)
Definition literal (kvs : list (string * V)) : dict V := update [] kvs.

End Ops.

End PyDict.

(** ** Floating point constants *)

(** [PHI = (1 + math.sqrt(5)) / 2] *)
Definition PHI : float := ((1 + PrimFloat.sqrt 5) / 2)%float.

(** Python's [min(a, b)] on two arguments: [b] when [b < a], else [a]. *)
Definition py_min (a b : float) : float :=
  if PrimFloat.ltb b a then b else a.

(** [int] to [float] conversion of a non-negative count (exact below 2^53;
    counts are far below 2^63, where the primitive conversion would wrap). *)
Definition float_of_int (n : Z) : float := PrimFloat.of_uint63 (Uint63.of_Z n).

(** ** Data model *)

(** A websocket object, by identity. *)
Definition WebSocket : Type := nat.

Inductive WebSocketState : Type := CONNECTING | CONNECTED | DISCONNECTED | RESPONSE.

Definition WebSocketState_eqb (a b : WebSocketState) : bool :=
  match a, b with
  | CONNECTING, CONNECTING | CONNECTED, CONNECTED
  | DISCONNECTED, DISCONNECTED | RESPONSE, RESPONSE => true
  | _, _ => false
  end.

(** JSON-like values carried by messages ([Dict[str, Any]]). *)
Inductive Value : Type :=
| VNone
| VBool (b : bool)
| VInt (z : Z)
| VFloat (f : float)
| VStr (s : string)
| VDict (d : list (string * Value)).

Definition Message : Type := PyDict.dict Value.

(** The per-connection entry of [connection_metadata]. *)
Record Metadata : Type := mkMetadata {
  connected_at : float;
  message_count : Z;
  last_message_time : float;
  sacred_geometry_score : float;
  phi_optimized : bool
}.

(** The task created by [asyncio.create_task(self._heartbeat_loop())]. *)
Inductive Task : Type := HeartbeatLoop.

Record WebSocketManager : Type := mkManager {
  active_connections : PyDict.dict WebSocket;
  connection_metadata : PyDict.dict Metadata;
  heartbeat_interval : float;
  max_connections : nat;
  message_rate_limit : nat;
  heartbeat_task : option Task
}.

(** [WebSocketManager.__init__], for a configured capacity [N]. *)
Definition new_manager (N : nat) : WebSocketManager :=
  {| active_connections := [];
     connection_metadata := [];
     heartbeat_interval := (30 * PHI)%float;
     max_connections := N;
     message_rate_limit := 97;
     heartbeat_task := None |}.

(** [int(100 * PHI)] *)
Definition default_max_connections : nat := 161.

(** [ws_manager = WebSocketManager()] *)
Definition ws_manager : WebSocketManager := new_manager default_max_connections.

Definition set_active_connections (d : PyDict.dict WebSocket) (s : WebSocketManager) :=
  {| active_connections := d;
     connection_metadata := connection_metadata s;
     heartbeat_interval := heartbeat_interval s;
     max_connections := max_connections s;
     message_rate_limit := message_rate_limit s;
     heartbeat_task := heartbeat_task s |}.

Definition set_connection_metadata (d : PyDict.dict Metadata) (s : WebSocketManager) :=
  {| active_connections := active_connections s;
     connection_metadata := d;
     heartbeat_interval := heartbeat_interval s;
     max_connections := max_connections s;
     message_rate_limit := message_rate_limit s;
     heartbeat_task := heartbeat_task s |}.

Definition set_heartbeat_task (t : option Task) (s : WebSocketManager) :=
  {| active_connections := active_connections s;
     connection_metadata := connection_metadata s;
     heartbeat_interval := heartbeat_interval s;
     max_connections := max_connections s;
     message_rate_limit := message_rate_limit s;
     heartbeat_task := t |}.

(** ** The outside world *)

Inductive LogLevel : Type := DEBUG | INFO | WARNING | ERROR.

(** What the manager does to the outside world, in order.  An I/O event is
    recorded when the call is made, whether or not it then raises. *)
Inductive Event : Type :=
| EvAccept (ws : WebSocket)
| EvClose (ws : WebSocket) (code : Z)
| EvSendJson (ws : WebSocket) (msg : Message)
| EvCreateTask
| EvCancelTask
| EvLog (level : LogLevel) (client_id : string).

(** What the outside world answers during one call. *)
Record Env : Type := mkEnv {
  accept_ok : WebSocket -> bool;
  send_json_ok : WebSocket -> bool;
  close_ok : WebSocket -> bool;
  client_state : WebSocket -> WebSocketState;
  clock : nat -> float
}.

Record World : Type := mkWorld {
  mgr : WebSocketManager;
  ticks : nat;
  trace : list Event
}.

(** Computations that read the oracle and thread the world. *)
Definition M (A : Type) : Type := Env -> World -> A * World.

Definition ret {A : Type} (a : A) : M A := fun _ w => (a, w).

Definition bind {A B : Type} (m : M A) (f : A -> M B) : M B :=
  fun e w => let r := m e w in f (fst r) e (snd r).

Declare Scope M_scope.
Delimit Scope M_scope with M.
Bind Scope M_scope with M.
Notation "x ← y ; z" := (bind y (fun x => z))
  (at level 20, y at level 100, z at level 200, only parsing) : M_scope.
Notation "x ;; z" := (bind x (fun _ => z))
  (at level 100, z at level 200, only parsing, right associativity) : M_scope.
Local Open Scope M_scope.

Definition get_self : M WebSocketManager := fun _ w => (mgr w, w).

Definition modify_self (f : WebSocketManager -> WebSocketManager) : M unit :=
  fun _ w => (tt, {| mgr := f (mgr w); ticks := ticks w; trace := trace w |}).

Definition emit (ev : Event) : M unit :=
  fun _ w => (tt, {| mgr := mgr w; ticks := ticks w; trace := trace w ++ [ev] |}).

(** [time.time()] *)
Definition time_time : M float :=
  fun e w => (clock e (ticks w),
              {| mgr := mgr w; ticks := S (ticks w); trace := trace w |}).

(** [await websocket.accept()]: [true] when it returns, [false] when it raises. *)
Definition ws_accept (ws : WebSocket) : M bool :=
  fun e w => (accept_ok e ws, snd (emit (EvAccept ws) e w)).

(** [await websocket.send_json(msg)] *)
Definition ws_send_json (ws : WebSocket) (msg : Message) : M bool :=
  fun e w => (send_json_ok e ws, snd (emit (EvSendJson ws msg) e w)).

(** [await websocket.close(code=...)] *)
Definition ws_close (ws : WebSocket) (code : Z) : M bool :=
  fun e w => (close_ok e ws, snd (emit (EvClose ws code) e w)).

(** [websocket.client_state] *)
Definition ws_client_state (ws : WebSocket) : M WebSocketState :=
  fun e w => (client_state e ws, w).

Definition logger (level : LogLevel) (client_id : string) : M unit :=
  emit (EvLog level client_id).

Definition is_some {A} (o : option A) : bool :=
  match o with Some _ => true | None => false end.

(** ** The operations of [WebSocketManager] *)

(** [WebSocketManager.disconnect] *)
Definition disconnect (client_id : string) : M unit :=
  self ← get_self;
  match PyDict.get client_id (active_connections self) with
  | None => ret tt
  | Some websocket =>
      (* Close WebSocket if still open; an exception of close is logged *)
      state ← ws_client_state websocket;
      (if WebSocketState_eqb state DISCONNECTED then ret tt
       else closed ← ws_close websocket 1000;
            if closed then ret tt else logger ERROR client_id);;
      (* Remove from active connections *)
      modify_self (fun s =>
        set_active_connections (PyDict.del client_id (active_connections s)) s);;
      (* Clean up metadata *)
      self ← get_self;
      (if PyDict.contains client_id (connection_metadata self)
       then _ ← time_time;
            logger INFO client_id;;
            modify_self (fun s =>
              set_connection_metadata (PyDict.del client_id (connection_metadata s)) s)
       else ret tt);;
      (* Stop heartbeat if no connections remain *)
      self ← get_self;
      if Nat.eqb (length (active_connections self)) 0 && is_some (heartbeat_task self)
      then emit EvCancelTask;;
           modify_self (set_heartbeat_task None)
      else ret tt
  end.

(** The [except Exception] branch of [send_personal_message]. *)
Definition send_failed (client_id : string) : M bool :=
  logger ERROR client_id;;
  disconnect client_id;;
  ret false.

(** The message [send_personal_message] sends:
    [{**message, "phi_constant": PHI, "client_id": ..., "server_timestamp": ...}] *)
Definition enhanced_message (client_id : string) (message : Message) (now : float) : Message :=
  PyDict.update message
    [("phi_constant", VFloat PHI);
     ("client_id", VStr client_id);
     ("server_timestamp", VFloat now)].

(** [WebSocketManager.send_personal_message] *)
Definition send_personal_message (client_id : string) (message : Message) : M bool :=
  self ← get_self;
  match PyDict.get client_id (active_connections self) with
  | None => logger WARNING client_id;; ret false
  | Some websocket =>
      now ← time_time;
      sent ← ws_send_json websocket (enhanced_message client_id message now);
      if negb sent then send_failed client_id
      else
        (* Update connection metadata *)
        self ← get_self;
        match PyDict.get client_id (connection_metadata self) with
        | None => ret true
        | Some metadata =>
            let count := (message_count metadata + 1)%Z in
            t_last ← time_time;
            let metadata1 :=
              {| connected_at := connected_at metadata;
                 message_count := count;
                 last_message_time := t_last;
                 sacred_geometry_score := sacred_geometry_score metadata;
                 phi_optimized := phi_optimized metadata |} in
            modify_self (fun s =>
              set_connection_metadata
                (PyDict.set client_id metadata1 (connection_metadata s)) s);;
            t ← time_time;
            let elapsed := (t - connected_at metadata + 1)%float in
            (* float division by zero raises ZeroDivisionError *)
            if PrimFloat.eqb elapsed 0 then send_failed client_id
            else
              let message_frequency := (float_of_int count / elapsed)%float in
              let metadata2 :=
                {| connected_at := connected_at metadata;
                   message_count := count;
                   last_message_time := t_last;
                   sacred_geometry_score :=
                     py_min (0.618 + message_frequency * 0.1)%float PHI;
                   phi_optimized := phi_optimized metadata |} in
              modify_self (fun s =>
                set_connection_metadata
                  (PyDict.set client_id metadata2 (connection_metadata s)) s);;
              ret true
        end
  end.

(** The welcome message of [connect]. *)
Definition welcome_message (client_id : string) (interval now : float) : Message :=
  PyDict.literal
    [("type", VStr "connection_established");
     ("client_id", VStr client_id);
     ("phi_constant", VFloat PHI);
     ("heartbeat_interval", VFloat interval);
     ("sacred_geometry_optimized", VBool true);
     ("timestamp", VFloat now)].

(** How a call of [connect] ends: it returns a flag, or the exception of the
    [close] of the rejection path (which no handler covers) escapes. *)
Inductive Outcome : Type := Returned (b : bool) | Raised.

(** [WebSocketManager.connect], when nothing else runs while it waits for
    [accept]; [connect_begin] and [connect_resume] below are its two halves. *)
Definition connect (websocket : WebSocket) (client_id : string) : M Outcome :=
  self ← get_self;
  (* Check connection limits *)
  if (max_connections self <=? length (active_connections self))%nat then
    closed ← ws_close websocket 1008;
    if closed then logger WARNING client_id;; ret (Returned false)
    else ret Raised
  else
    accepted ← ws_accept websocket;
    if negb accepted then logger ERROR client_id;; ret (Returned false)
    else
      modify_self (fun s =>
        set_active_connections
          (PyDict.set client_id websocket (active_connections s)) s);;
      t_connected ← time_time;
      t_last ← time_time;
      modify_self (fun s =>
        set_connection_metadata
          (PyDict.set client_id
             {| connected_at := t_connected;
                message_count := 0;
                last_message_time := t_last;
                sacred_geometry_score := 0.618%float;
                phi_optimized := true |}
             (connection_metadata s)) s);;
      logger INFO client_id;;
      (* Start heartbeat if this is the first connection *)
      self ← get_self;
      (if Nat.eqb (length (active_connections self)) 1
          && negb (is_some (heartbeat_task self))
       then emit EvCreateTask;;
            modify_self (set_heartbeat_task (Some HeartbeatLoop))
       else ret tt);;
      (* Send welcome message *)
      self ← get_self;
      t ← time_time;
      _ ← send_personal_message client_id
            (welcome_message client_id (heartbeat_interval self) t);
      ret (Returned true).

(** [client_id == exclude_client] *)
Definition is_excluded (client_id : string) (exclude_client : option string) : bool :=
  match exclude_client with
  | Some x => String.eqb client_id x
  | None => false
  end.

(** The sending loop of [broadcast] when nothing else runs during its
    [await]s: no statement of the loop changes the dict it iterates, so it
    visits the items the dict had when the loop began.  [broadcast_live_loop]
    below is the loop over the dict as other coroutines leave it. *)
Fixpoint broadcast_send_loop (items : list (string * WebSocket))
    (exclude_client : option string) (broadcast_msg : Message)
    (disconnected_clients : list string) : M (list string) :=
  match items with
  | [] => ret disconnected_clients
  | (client_id, websocket) :: rest =>
      if is_excluded client_id exclude_client
      then broadcast_send_loop rest exclude_client broadcast_msg disconnected_clients
      else
        sent ← ws_send_json websocket broadcast_msg;
        if sent
        then broadcast_send_loop rest exclude_client broadcast_msg disconnected_clients
        else
          logger ERROR client_id;;
          broadcast_send_loop rest exclude_client broadcast_msg
            (disconnected_clients ++ [client_id])
  end.

(** [for client_id in disconnected_clients: await self.disconnect(client_id)] *)
Fixpoint disconnect_all (clients : list string) : M unit :=
  match clients with
  | [] => ret tt
  | client_id :: rest => disconnect client_id;; disconnect_all rest
  end.

(** The enriched message of [broadcast]. *)
Definition broadcast_message (message : Message) (now : float) (count : nat) : Message :=
  PyDict.update message
    [("type", VStr "broadcast");
     ("phi_constant", VFloat PHI);
     ("server_timestamp", VFloat now);
     ("connection_count", VInt (Z.of_nat count))].

(** [WebSocketManager.broadcast], when nothing else runs during its
    [await]s; [broadcast_live] below is the method with its suspensions. *)
Definition broadcast (message : Message) (exclude_client : option string) : M unit :=
  self ← get_self;
  match active_connections self with
  | [] => ret tt
  | _ :: _ =>
      now ← time_time;
      let broadcast_msg :=
        broadcast_message message now (length (active_connections self)) in
      disconnected_clients ←
        broadcast_send_loop (active_connections self) exclude_client broadcast_msg [];
      (* Clean up disconnected clients *)
      disconnect_all disconnected_clients
  end.

(** One iteration of [_heartbeat_loop], from the return of the sleep. *)
Definition heartbeat_iteration : M unit :=
  self ← get_self;
  t ← time_time;
  broadcast
    (PyDict.literal
       [("type", VStr "heartbeat");
        ("phi_interval", VFloat (heartbeat_interval self));
        ("server_time", VFloat t);
        ("active_connections", VInt (Z.of_nat (length (active_connections self))))])
    None;;
  logger DEBUG "heartbeat".

(** ** Sequences of calls *)

Inductive Call : Type :=
| CallConnect (websocket : WebSocket) (client_id : string)
| CallDisconnect (client_id : string)
| CallSend (client_id : string) (message : Message)
| CallBroadcast (message : Message) (exclude_client : option string)
| CallHeartbeat.

Definition call (c : Call) : M unit :=
  match c with
  | CallConnect websocket client_id => _ ← connect websocket client_id; ret tt
  | CallDisconnect client_id => disconnect client_id
  | CallSend client_id message => _ ← send_personal_message client_id message; ret tt
  | CallBroadcast message exclude_client => broadcast message exclude_client
  | CallHeartbeat => heartbeat_iteration
  end.

(** Calls run one after the other, each against the answers of its own time. *)
Fixpoint run (calls : list (Env * Call)) (w : World) : World :=
  match calls with
  | [] => w
  | (e, c) :: rest => run rest (snd (call c e w))
  end.

Definition initial_world (N : nat) : World :=
  {| mgr := new_manager N; ticks := 0; trace := [] |}.

(** ** Reading a trace *)

(** The [send_json] calls of a trace, in order. *)
Fixpoint sends_of (evs : list Event) : list (WebSocket * Message) :=
  match evs with
  | [] => []
  | EvSendJson ws msg :: rest => (ws, msg) :: sends_of rest
  | _ :: rest => sends_of rest
  end.

Definition is_send (ev : Event) : bool :=
  match ev with EvSendJson _ _ => true | _ => false end.

(** What only the unregistration of a connection does: closing its channel,
    cancelling the heartbeat task. *)
Definition is_cleanup (ev : Event) : bool :=
  match ev with EvClose _ _ | EvCancelTask => true | _ => false end.

(** How many times a trace starts, and stops, the heartbeat task. *)
Fixpoint starts (evs : list Event) : nat :=
  match evs with
  | [] => 0
  | EvCreateTask :: rest => S (starts rest)
  | _ :: rest => starts rest
  end.

Fixpoint stops (evs : list Event) : nat :=
  match evs with
  | [] => 0
  | EvCancelTask :: rest => S (stops rest)
  | _ :: rest => stops rest
  end.

(** ** What the operations do to the manager *)

(** The manager after [disconnect client_id]. *)
Definition unregistered (client_id : string) (s : WebSocketManager) : WebSocketManager :=
  if PyDict.contains client_id (active_connections s) then
    {| active_connections := PyDict.del client_id (active_connections s);
       connection_metadata := PyDict.del client_id (connection_metadata s);
       heartbeat_interval := heartbeat_interval s;
       max_connections := max_connections s;
       message_rate_limit := message_rate_limit s;
       heartbeat_task :=
         if Nat.eqb (length (PyDict.del client_id (active_connections s))) 0
         then None else heartbeat_task s |}
  else s.

(** The connections a broadcast addresses, and those among them whose
    [send_json] raises. *)
Definition targets (exclude_client : option string)
    (items : list (string * WebSocket)) : list (string * WebSocket) :=
  List.filter (fun kv => negb (is_excluded (fst kv) exclude_client)) items.

Definition failed_targets (e : Env) (exclude_client : option string)
    (items : list (string * WebSocket)) : list string :=
  List.map fst
    (List.filter (fun kv => negb (send_json_ok e (snd kv))) (targets exclude_client items)).

(** The events of the sending loop of a broadcast. *)
Definition pass_events (e : Env) (exclude_client : option string)
    (broadcast_msg : Message) (items : list (string * WebSocket)) : list Event :=
  flat_map
    (fun kv => EvSendJson (snd kv) broadcast_msg ::
               if send_json_ok e (snd kv) then [] else [EvLog ERROR (fst kv)])
    (targets exclude_client items).

(** The state a manager is in between two calls. *)
Record consistent (N : nat) (s : WebSocketManager) : Prop := mkConsistent {
  cons_max : max_connections s = N;
  cons_size : length (active_connections s) <= N;
  cons_keys : PyDict.keys (active_connections s) = PyDict.keys (connection_metadata s);
  cons_nodup : List.NoDup (PyDict.keys (active_connections s));
  cons_heartbeat :
    is_some (heartbeat_task s) = negb (Nat.eqb (length (active_connections s)) 0)
}.

(** ** The rate limiter of [src/main.py] *)

(** [RATE_LIMIT_REQUESTS = int(100 * PHI)] *)
Definition RATE_LIMIT_REQUESTS : nat := 161.

(** [RATE_LIMIT_WINDOW = int(60 * PHI)] *)
Definition RATE_LIMIT_WINDOW : float := 97%float.

(** [check_rate_limit], for a limit and a window; [current_time] is what
    [time.time()] returns, and the table [rate_limit_storage] is threaded. *)
Definition check_rate_limit_with (limit : nat) (window : float)
    (client_ip : string) (current_time : float)
    (rate_limit_storage : gmap string (list float)) : bool * gmap string (list float) :=
  let storage0 :=
    match rate_limit_storage !! client_ip with
    | None => <[client_ip := []]> rate_limit_storage
    | Some _ => rate_limit_storage
    end in
  (* Clean old requests *)
  let cutoff_time := (current_time - window)%float in
  let recent :=
    List.filter (fun req_time => PrimFloat.ltb cutoff_time req_time)
      (default [] (storage0 !! client_ip)) in
  let storage1 := <[client_ip := recent]> storage0 in
  (* Check if within rate limit *)
  if (limit <=? List.length recent)%nat then (false, storage1)
  else (true, <[client_ip := (recent ++ [current_time])%list]> storage1).

Definition check_rate_limit : string -> float -> gmap string (list float) ->
    bool * gmap string (list float) :=
  check_rate_limit_with RATE_LIMIT_REQUESTS RATE_LIMIT_WINDOW.

(** A sequence of admission checks, with the decisions in order. *)
Fixpoint check_all (limit : nat) (window : float) (requests : list (string * float))
    (storage : gmap string (list float)) : list bool * gmap string (list float) :=
  match requests with
  | [] => ([], storage)
  | (client_ip, t) :: rest =>
      let r := check_rate_limit_with limit window client_ip t storage in
      let rs := check_all limit window rest (snd r) in
      (fst r :: fst rs, snd rs)
  end.

(** The admission check as the specification words it: the timestamps older
    than [now - window] are pruned, the others stay. *)
Definition allow_spec (limit : nat) (window : float) (key : string) (now : float)
    (storage : gmap string (list float)) : bool * gmap string (list float) :=
  let remaining :=
    List.filter (fun t => negb (PrimFloat.ltb t (now - window)%float))
      (default [] (storage !! key)) in
  if (limit <=? List.length remaining)%nat then (false, <[key := remaining]> storage)
  else (true, <[key := (remaining ++ [now])%list]> storage).

(** ** The rest of [src/websockets.py] *)

(** [sum(metadata.get("message_count", 0) for ...)], on integers. *)
Definition total_message_count (metadata : PyDict.dict Metadata) : Z :=
  fold_left Z.add (List.map (fun kv => message_count (snd kv)) metadata) 0%Z.

(** A number of a statistics dict as the float a division takes it for. *)
Definition number_to_float (v : Value) : float :=
  match v with
  | VInt z => float_of_int z
  | VFloat f => f
  | _ => PrimFloat.nan
  end.

Section Endpoint.

(** The builtin [sum] on a list of floats.  How it rounds depends on the
    interpreter (plain left-to-right addition, compensated summation from
    Python 3.12 on), and nothing below depends on it. *)
Variable float_sum : list float -> float.

(** The client id [websocket_endpoint] makes up,
    [f"client_{int(time.time())}_{id(websocket)}"]: a function of the clock
    reading and of the address of the websocket object. *)
Variable generated_client_id : float -> WebSocket -> string.

(** [WebSocketManager.get_connection_stats]; [None] when a division raises
    [ZeroDivisionError]. *)
Definition get_connection_stats : M (option Message) :=
  self ← get_self;
  let total_connections := length (active_connections self) in
  let total_messages := total_message_count (connection_metadata self) in
  averages ←
    (if Nat.ltb 0 total_connections then
       current_time ← time_time;
       let values := List.map snd (connection_metadata self) in
       let connection_times :=
         List.map (fun md => (current_time - connected_at md)%float) values in
       let sacred_geometry_scores := List.map sacred_geometry_score values in
       if Nat.eqb (length values) 0 then ret None
       else
         let n := float_of_int (Z.of_nat (length values)) in
         ret (Some (VFloat (float_sum connection_times / n)%float,
                    VFloat (float_sum sacred_geometry_scores / n)%float))
     else ret (Some (VInt 0, VInt 0)));
  match averages with
  | None => ret None
  | Some (avg_connection_time, avg_sacred_geometry_score) =>
      now ← time_time;
      ret (Some (PyDict.literal
        [("active_connections", VInt (Z.of_nat total_connections));
         ("max_connections", VInt (Z.of_nat (max_connections self)));
         ("total_messages_sent", VInt total_messages);
         ("average_connection_time", avg_connection_time);
         ("average_sacred_geometry_score", avg_sacred_geometry_score);
         ("phi_optimization_factor",
          if PrimFloat.ltb 0 PHI
          then VFloat (number_to_float avg_sacred_geometry_score / PHI)%float
          else VInt 0);
         ("heartbeat_interval", VFloat (heartbeat_interval self));
         ("phi_constant", VFloat PHI);
         ("timestamp", VFloat now)]))
  end.

(** [v == s] for a string literal [s]. *)
Definition is_str (v : Value) (s : string) : bool :=
  match v with
  | VStr s' => String.eqb s' s
  | _ => false
  end.

(** The body of the receive loop of [websocket_endpoint], for the value
    [receive_json] returned; [false] when an exception leaves the loop
    ([data.get] on a value that is not a JSON object, a division by zero in
    the statistics). *)
Definition handle_message (client_id : string) (data : Value) : M bool :=
  match data with
  | VDict d =>
      let message_type := default (VStr "unknown") (PyDict.get "type" d) in
      if is_str message_type "ping" then
        t_default ← time_time;
        t_response ← time_time;
        _ ← send_personal_message client_id
              (PyDict.literal
                 [("type", VStr "pong");
                  ("original_timestamp",
                   default (VFloat t_default) (PyDict.get "timestamp" d));
                  ("response_timestamp", VFloat t_response)]);
        ret true
      else if is_str message_type "get_status" then
        connection_stats ← get_connection_stats;
        match connection_stats with
        | None => ret false
        | Some stats =>
            _ ← send_personal_message client_id
                  (PyDict.literal
                     [("type", VStr "status_response");
                      ("system_status", VStr "operational");
                      ("connection_stats", VDict stats)]);
            ret true
        end
      else if is_str message_type "subscribe" then
        _ ← send_personal_message client_id
              (PyDict.literal
                 [("type", VStr "subscription_confirmed");
                  ("subscription",
                   default (VStr "all") (PyDict.get "subscription" d));
                  ("phi_optimized", VBool true)]);
        ret true
      else
        t ← time_time;
        _ ← send_personal_message client_id
              (PyDict.literal
                 [("type", VStr "message_received");
                  ("original_message", data);
                  ("processed_at", VFloat t)]);
        ret true
  | _ => ret false
  end.



(** How a call of [websocket_endpoint] ends. *)
Inductive Completion : Type := Completed | Escaped.



End Endpoint.

(** ** Suspension points

    [connect] and [broadcast] are coroutines: while one of them waits at an
    [await] of its channel, the event loop runs other coroutines, which see
    and change the same manager.  [connect] above and [broadcast] above are
    the runs in which nothing else happens at any [await]; the definitions of
    this section cut the two coroutines at their [await]s. *)

(** [connect] up to its first [await].  When the limit is reached the call
    ends there ([inl]); otherwise the coroutine is suspended in
    [await websocket.accept()], which will return ([inr true]) or raise
    ([inr false]). *)
Definition connect_begin (websocket : WebSocket) (client_id : string) :
    M (Outcome + bool) :=
  self ← get_self;
  (* Check connection limits *)
  if (max_connections self <=? length (active_connections self))%nat then
    closed ← ws_close websocket 1008;
    if closed then logger WARNING client_id;; ret (inl (Returned false))
    else ret (inl Raised)
  else
    accepted ← ws_accept websocket;
    ret (inr accepted).

(** The statements of [connect] between the return of [accept] and the next
    [await]: the registration. *)
Definition register (websocket : WebSocket) (client_id : string) : M unit :=
  modify_self (fun s =>
    set_active_connections
      (PyDict.set client_id websocket (active_connections s)) s);;
  t_connected ← time_time;
  t_last ← time_time;
  modify_self (fun s =>
    set_connection_metadata
      (PyDict.set client_id
         {| connected_at := t_connected;
            message_count := 0;
            last_message_time := t_last;
            sacred_geometry_score := 0.618%float;
            phi_optimized := true |}
         (connection_metadata s)) s);;
  logger INFO client_id;;
  (* Start heartbeat if this is the first connection *)
  self ← get_self;
  if Nat.eqb (length (active_connections self)) 1
     && negb (is_some (heartbeat_task self))
  then emit EvCreateTask;;
       modify_self (set_heartbeat_task (Some HeartbeatLoop))
  else ret tt.

(** [connect] from the moment [accept] has answered, in the world as it is
    then; the welcome message is sent without further interruption. *)
Definition connect_resume (websocket : WebSocket) (client_id : string)
    (accepted : bool) : M Outcome :=
  if negb accepted then logger ERROR client_id;; ret (Returned false)
  else
    register websocket client_id;;
    (* Send welcome message *)
    self ← get_self;
    t ← time_time;
    _ ← send_personal_message client_id
          (welcome_message client_id (heartbeat_interval self) t);
    ret (Returned true).

(** What another coroutine does to the registry while this one waits: a whole
    call of [disconnect], or the registration of a [connect] whose [accept]
    has returned.  Either changes the size of [active_connections] by one, or
    leaves its keys and their positions as they are. *)
Inductive Other : Type :=
| Disconnects (e : Env) (client_id : string)
| Registers (e : Env) (websocket : WebSocket) (client_id : string).

Definition meanwhile (other : option Other) (w : World) : World :=
  match other with
  | None => w
  | Some (Disconnects e client_id) => snd (disconnect client_id e w)
  | Some (Registers e websocket client_id) => snd (register websocket client_id e w)
  end.

(** How the [for] loop of [broadcast] ends: it runs out of items, or the
    iterator of the dict raises [RuntimeError: dictionary changed size during
    iteration], which no handler of [broadcast] covers. *)
Inductive PassEnd : Type :=
| PassCompleted (disconnected_clients : list string)
| DictChangedSize.

(** The [for] loop of [broadcast] over [self.active_connections.items()], the
    dict itself: the iterator remembers the [size] the dict had when the loop
    began and the position [pos] it has reached, and at every step first
    compares the size of the dict as it is now.  [remaining] counts the items
    still to come; [others] says, for each [await websocket.send_json] in
    turn, what happens to the registry during it. *)
Fixpoint broadcast_live_loop (remaining size pos : nat)
    (exclude_client : option string) (broadcast_msg : Message)
    (others : list (option Other)) (disconnected_clients : list string)
    (e : Env) (w : World) : PassEnd * World :=
  if negb (Nat.eqb (length (active_connections (mgr w))) size)
  then (DictChangedSize, w)
  else
    match remaining, nth_error (active_connections (mgr w)) pos with
    | S remaining', Some (client_id, websocket) =>
        if is_excluded client_id exclude_client
        then broadcast_live_loop remaining' size (S pos) exclude_client
               broadcast_msg others disconnected_clients e w
        else
          let r := ws_send_json websocket broadcast_msg e w in
          let w1 := meanwhile (hd None others) (snd r) in
          if fst r
          then broadcast_live_loop remaining' size (S pos) exclude_client
                 broadcast_msg (tl others) disconnected_clients e w1
          else broadcast_live_loop remaining' size (S pos) exclude_client
                 broadcast_msg (tl others) (disconnected_clients ++ [client_id])
                 e (snd (logger ERROR client_id e w1))
    | _, _ => (PassCompleted disconnected_clients, w)
    end.

(** [WebSocketManager.broadcast] with its suspensions: [Escaped] when the
    [RuntimeError] of the iterator leaves the call, before the clean-up.  The
    clean-up itself is run without interruption. *)
Definition broadcast_live (message : Message) (exclude_client : option string)
    (others : list (option Other)) : M Completion :=
  fun e w =>
    match active_connections (mgr w) with
    | [] => (Completed, w)
    | _ :: _ =>
        let r0 := time_time e w in
        let size := length (active_connections (mgr w)) in
        let broadcast_msg := broadcast_message message (fst r0) size in
        let r := broadcast_live_loop size size 0 exclude_client broadcast_msg
                   others [] e (snd r0) in
        match fst r with
        | PassCompleted disconnected_clients =>
            (* Clean up disconnected clients *)
            (Completed, snd (disconnect_all disconnected_clients e (snd r)))
        | DictChangedSize => (Escaped, snd r)
        end
    end.

(** Nothing happens to the registry during any [await] of a pass. *)
Definition undisturbed (others : list (option Other)) : Prop :=
  Forall (fun other => other = None) others.

(** The functions of [src/websockets.py] other code calls; the four of them
    go through [broadcast]. *)
Module Api.

(** The payload of the administrative broadcast. *)
Definition admin_broadcast (message : Message) (t : float) : Message :=
  PyDict.literal
    [("type", VStr "admin_broadcast");
     ("content", VDict message);
     ("broadcast_time", VFloat t)].

(** [broadcast_message], the administrative endpoint.  [broadcast] handles
    the failures of [send_json] itself; what reaches the [except] branch is
    the [RuntimeError] of the dict iterator. *)
Definition broadcast_message (message : Message) (others : list (option Other)) :
    M Message :=
  t ← time_time;
  pass ← broadcast_live (admin_broadcast message t) None others;
  match pass with
  | Completed =>
      self ← get_self;
      now ← time_time;
      ret (PyDict.literal
             [("success", VBool true);
              ("message", VStr "Broadcast sent successfully");
              ("recipients", VInt (Z.of_nat (length (active_connections self))));
              ("timestamp", VFloat now)])
  | Escaped =>
      logger ERROR "broadcast_message";;
      now ← time_time;
      ret (PyDict.literal
             [("success", VBool false);
              ("error", VStr "dictionary changed size during iteration");
              ("timestamp", VFloat now)])
  end.

(** [data or {}] *)
Definition or_empty (data : option Message) : Message :=
  match data with
  | Some (kv :: rest) => kv :: rest
  | _ => []
  end.

(** [send_system_update]; as in the two functions after it, the exception
    of [broadcast] is not caught. *)
Definition send_system_update (update_type : string) (data : Message)
    (others : list (option Other)) : M Completion :=
  t ← time_time;
  broadcast_live
    (PyDict.literal
       [("type", VStr "system_update");
        ("update_type", VStr update_type);
        ("data", VDict data);
        ("phi_optimized", VBool true);
        ("timestamp", VFloat t)])
    None others.

(** [send_plugin_update] *)
Definition send_plugin_update (plugin_name status : string) (data : option Message)
    (others : list (option Other)) : M Completion :=
  t ← time_time;
  broadcast_live
    (PyDict.literal
       [("type", VStr "plugin_update");
        ("plugin_name", VStr plugin_name);
        ("status", VStr status);
        ("data", VDict (or_empty data));
        ("phi_optimized", VBool true);
        ("timestamp", VFloat t)])
    None others.

(** [send_analysis_progress] *)
Definition send_analysis_progress (analysis_id : string) (progress : float)
    (details : option Message) (others : list (option Other)) : M Completion :=
  t ← time_time;
  broadcast_live
    (PyDict.literal
       [("type", VStr "analysis_progress");
        ("analysis_id", VStr analysis_id);
        ("progress", VFloat progress);
        ("details", VDict (or_empty details));
        ("phi_factor", VFloat (progress * PHI)%float);
        ("timestamp", VFloat t)])
    None others.

End Api.

(** ** [ConnectionManager] of [src/main.py] *)

Module ConnectionManager.

Record State : Type := mkState {
  active_connections : list WebSocket;
  connection_count : Z;
  events : list Event
}.

(** [ConnectionManager.__init__] *)
Definition init : State :=
  {| active_connections := []; connection_count := 0; events := [] |}.

(** [websocket in self.active_connections] *)
Definition registered (websocket : WebSocket) (s : State) : bool :=
  existsb (Nat.eqb websocket) (active_connections s).

(** [list.remove(x)]: the first occurrence goes. *)
Fixpoint remove_first (x : WebSocket) (l : list WebSocket) : list WebSocket :=
  match l with
  | [] => []
  | y :: rest => if Nat.eqb x y then rest else y :: remove_first x rest
  end.

(** [ConnectionManager.connect]; the exception of [accept] escapes. *)
Definition connect (websocket : WebSocket) (e : Env) (s : State) : Completion * State :=
  if accept_ok e websocket then
    (Completed,
     {| active_connections := (active_connections s ++ [websocket])%list;
        connection_count := (connection_count s + 1)%Z;
        events := (events s ++ [EvAccept websocket; EvLog INFO "connected"])%list |})
  else
    (Escaped,
     {| active_connections := active_connections s;
        connection_count := connection_count s;
        events := (events s ++ [EvAccept websocket])%list |}).

(** [ConnectionManager.disconnect] *)
Definition disconnect (websocket : WebSocket) (s : State) : State :=
  if registered websocket s then
    {| active_connections := remove_first websocket (active_connections s);
       connection_count := Z.max 0 (connection_count s - 1);
       events := (events s ++ [EvLog INFO "disconnected"])%list |}
  else s.

(** [ConnectionManager.send_personal_message]; both [except] clauses log and
    disconnect. *)
Definition send_personal_message (message : Message) (websocket : WebSocket)
    (e : Env) (s : State) : State :=
  let s1 :=
    {| active_connections := active_connections s;
       connection_count := connection_count s;
       events := (events s ++ [EvSendJson websocket message])%list |} in
  if send_json_ok e websocket then s1
  else
    disconnect websocket
      {| active_connections := active_connections s1;
         connection_count := connection_count s1;
         events := (events s1 ++ [EvLog ERROR "send"])%list |}.

(** The sending loop of [ConnectionManager.broadcast]. *)
Fixpoint broadcast_loop (connections : list WebSocket) (message : Message)
    (e : Env) (disconnected : list WebSocket) (s : State) : list WebSocket * State :=
  match connections with
  | [] => (disconnected, s)
  | connection :: rest =>
      let s1 :=
        {| active_connections := active_connections s;
           connection_count := connection_count s;
           events := (events s ++ [EvSendJson connection message])%list |} in
      if send_json_ok e connection then broadcast_loop rest message e disconnected s1
      else
        broadcast_loop rest message e (disconnected ++ [connection])%list
          {| active_connections := active_connections s1;
             connection_count := connection_count s1;
             events := (events s1 ++ [EvLog ERROR "broadcast"])%list |}
  end.

(** [ConnectionManager.broadcast] *)
Definition broadcast (message : Message) (e : Env) (s : State) : State :=
  let r := broadcast_loop (active_connections s) message e [] s in
  fold_left (fun acc connection => disconnect connection acc) (fst r) (snd r).

Inductive Call : Type :=
| CallConnect (websocket : WebSocket)
| CallDisconnect (websocket : WebSocket)
| CallSend (message : Message) (websocket : WebSocket)
| CallBroadcast (message : Message).

Definition call (c : Call) (e : Env) (s : State) : State :=
  match c with
  | CallConnect websocket => snd (connect websocket e s)
  | CallDisconnect websocket => disconnect websocket s
  | CallSend message websocket => send_personal_message message websocket e s
  | CallBroadcast message => broadcast message e s
  end.

Fixpoint run (calls : list (Env * Call)) (s : State) : State :=
  match calls with
  | [] => s
  | (e, c) :: rest => run rest (call c e s)
  end.

End ConnectionManager.

(** ** Authentication of [src/endpoints.py] *)

Module Endpoints.

(** [JWT_ACCESS_TOKEN_EXPIRE_MINUTES] *)
Definition JWT_ACCESS_TOKEN_EXPIRE_MINUTES : Z := 30.

(** [fake_users_db] *)
Definition fake_users_db : PyDict.dict Message :=
  [("admin",
    [("username", VStr "admin");
     ("hashed_password", VStr "hashed_sacred_geometry_2025");
     ("role", VStr "administrator");
     ("phi_optimized", VBool true)])].

(** [authenticate_user]; an empty user dict is falsy. *)
Definition authenticate_user (username password : string) : option Message :=
  match PyDict.get username fake_users_db with
  | None | Some [] => None
  | Some user =>
      if negb (String.eqb password "sacred_geometry_2025") then None
      else Some user
  end.

(** [create_access_token] *)
Definition create_access_token (data : Message) (expires_delta : option Z) : string :=
  "mock_token".

Record AuthToken : Type := mkAuthToken {
  access_token : string;
  token_type : string;
  expires_in : Z;
  token_phi_optimized : bool
}.

(** [login]: the token, or the status code of the [HTTPException]; a user
    dict without [username] or [role] raises [KeyError], a server error. *)
Definition login (username password : string) : AuthToken + Z :=
  match authenticate_user username password with
  | None => inr 401%Z
  | Some user =>
      match PyDict.get "username" user, PyDict.get "role" user with
      | Some sub, Some role =>
          let access_token :=
            create_access_token [("sub", sub); ("role", role)]
              (Some (JWT_ACCESS_TOKEN_EXPIRE_MINUTES * 60)%Z) in
          inl {| access_token := access_token;
                 token_type := "bearer";
                 expires_in := (JWT_ACCESS_TOKEN_EXPIRE_MINUTES * 60)%Z;
                 token_phi_optimized := true |}
      | _, _ => inr 500%Z
      end
  end.

End Endpoints.

(** ** Notions the properties are stated with *)

(** The channels a trace closes. *)
Fixpoint closes_of (evs : list Event) : list WebSocket :=
  match evs with
  | [] => []
  | EvClose ws _ :: rest => ws :: closes_of rest
  | _ :: rest => closes_of rest
  end.

(** The world in which an admitted [connect] sends its welcome message. *)
Definition registered_world (websocket : WebSocket) (client_id : string)
    (e : Env) (w : World) : World :=
  let registry := PyDict.set client_id websocket (active_connections (mgr w)) in
  let first := Nat.eqb (length registry) 1 && negb (is_some (heartbeat_task (mgr w))) in
  {| mgr :=
       {| active_connections := registry;
          connection_metadata :=
            PyDict.set client_id
              {| connected_at := clock e (ticks w);
                 message_count := 0;
                 last_message_time := clock e (S (ticks w));
                 sacred_geometry_score := 0.618%float;
                 phi_optimized := true |}
              (connection_metadata (mgr w));
          heartbeat_interval := heartbeat_interval (mgr w);
          max_connections := max_connections (mgr w);
          message_rate_limit := message_rate_limit (mgr w);
          heartbeat_task :=
            if first then Some HeartbeatLoop else heartbeat_task (mgr w) |};
     ticks := S (S (S (ticks w)));
     trace :=
       (trace w ++ EvAccept websocket :: EvLog INFO client_id ::
          if first then [EvCreateTask] else [])%list |}.

(** The type of the reply to a received object, by the chain of comparisons
    of [websocket_endpoint]. *)
Definition reply_type (d : Message) : string :=
  let message_type := default (VStr "unknown") (PyDict.get "type" d) in
  if is_str message_type "ping" then "pong"
  else if is_str message_type "get_status" then "status_response"
  else if is_str message_type "subscribe" then "subscription_confirmed"
  else "message_received".

(** The counter and the list agree. *)
Definition counted (s : ConnectionManager.State) : Prop :=
  ConnectionManager.connection_count s =
  Z.of_nat (length (ConnectionManager.active_connections s)).

(** 1 when the registry holds a connection, else 0. *)
Definition occupied (w : World) : nat :=
  if Nat.eqb (length (active_connections (mgr w))) 0 then 0 else 1.

(** A step keeps the balance of tasks: those it creates, plus the one alive
    before it if any, are those it cancels plus the one alive after it. *)
Definition balanced (w w' : World) : Prop :=
  exists evs,
    trace w' = (trace w ++ evs)%list /\
    starts evs + occupied w = stops evs + occupied w'.

(** Every metadata entry counts at least one message. *)
Definition welcomed (s : WebSocketManager) : Prop :=
  forall k md, PyDict.get k (connection_metadata s) = Some md ->
    (1 <= message_count md)%Z.

(** ** Concrete worlds *)

(** An outside world in which every call returns and the clock reads [t]. *)
Definition quiet_env (t : float) : Env :=
  {| accept_ok := fun _ => true;
     send_json_ok := fun _ => true;
     close_ok := fun _ => true;
     client_state := fun _ => CONNECTED;
     clock := fun _ => t |}.

(** The same, except that [send_json] raises on the websocket [broken]. *)
Definition broken_env (broken : WebSocket) (t : float) : Env :=
  {| accept_ok := fun _ => true;
     send_json_ok := fun ws => negb (Nat.eqb ws broken);
     close_ok := fun _ => true;
     client_state := fun _ => CONNECTED;
     clock := fun _ => t |}.


(** An outside world in which every [close] raises. *)
Definition unclosable_env (t : float) : Env :=
  {| accept_ok := fun _ => true;
     send_json_ok := fun _ => true;
     close_ok := fun _ => false;
     client_state := fun _ => CONNECTED;
     clock := fun _ => t |}.

(** The ids [c0], [c1], ... of a crowd of clients. *)
Definition crowd_id (n : nat) : string :=
  ("c" ++ String (Ascii.ascii_of_nat n) EmptyString)%string.

(** [n] clients connect one after the other, client [k] on the websocket [k]. *)
Definition crowd (n : nat) : list (Env * Call) :=
  List.map (fun k => (quiet_env 0%float, CallConnect k (crowd_id k))) (seq 0 n).

(** The reply to a ping, as [websocket_endpoint] builds it. *)
Definition pong (original now : float) : Message :=
  PyDict.literal
    [("type", VStr "pong");
     ("original_timestamp", VFloat original);
     ("response_timestamp", VFloat now)].

(** The quality score the manager holds for a client. *)
Definition score_of (client_id : string) (w : World) : option float :=
  option_map sacred_geometry_score
    (PyDict.get client_id (connection_metadata (mgr w))).

(** * Properties *)

(** ** Constants *)

(** [int(100 * PHI)] is 161 and [int(60 * PHI)] is 97: the products lie
    between the integer and its successor. *)
Lemma phi_constants :
  PrimFloat.leb 161 (100 * PHI) = true /\ PrimFloat.ltb (100 * PHI) 162 = true /\
  PrimFloat.leb 97 (60 * PHI) = true /\ PrimFloat.ltb (60 * PHI) 98 = true /\
  max_connections ws_manager = 161.
Proof. vm_compute. repeat split; reflexivity. Qed.

(** Two clients connect; a broadcast that excludes the first finds the channel
    of the second broken: the send is attempted, the client is unregistered,
    the first client stays and the heartbeat task keeps running. *)
Example broadcast_with_broken_channel :
  let w := run [(quiet_env 0%float, CallConnect 1 "a");
                (quiet_env 1%float, CallConnect 2 "b")] (initial_world 161) in
  let w' := snd (broadcast [("text", VStr "hello")] (Some "a") (broken_env 2 5%float) w) in
  PyDict.keys (active_connections (mgr w)) = ["a"; "b"] /\
  PyDict.keys (active_connections (mgr w')) = ["a"] /\
  PyDict.keys (connection_metadata (mgr w')) = ["a"] /\
  heartbeat_task (mgr w') = Some HeartbeatLoop /\
  skipn (length (trace w)) (trace w') =
    [EvSendJson 2 (broadcast_message [("text", VStr "hello")] 5%float 2);
     EvLog ERROR "b"; EvClose 2 1000; EvLog INFO "b"].
Proof. vm_compute. repeat split; reflexivity. Qed.

(** ** Dictionaries *)

Section DictFacts.
Context {V : Type}.
Implicit Types (k : string) (v : V) (d : PyDict.dict V).

Lemma dict_get_set_eq k v d : PyDict.get k (PyDict.set k v d) = Some v.
Proof.
  induction d as [|[k' v'] d IH]; simpl.
  - now rewrite String.eqb_refl.
  - destruct (String.eqb k k') eqn:E; simpl; rewrite ?String.eqb_refl, ?E; auto.
Qed.

Lemma dict_get_set_ne k k' v d :
  k <> k' -> PyDict.get k' (PyDict.set k v d) = PyDict.get k' d.
Proof.
  intros Hne. apply String.eqb_neq in Hne. rewrite String.eqb_sym in Hne.
  induction d as [|[k0 v0] d IH]; simpl.
  - now rewrite Hne.
  - destruct (String.eqb k k0) eqn:E; simpl.
    + apply String.eqb_eq in E. subst k0. now rewrite Hne.
    + now rewrite IH.
Qed.

Lemma dict_contains_In k d : PyDict.contains k d = true <-> In k (PyDict.keys d).
Proof.
  unfold PyDict.contains.
  induction d as [|[k' v'] d IH]; simpl.
  - split; [discriminate | tauto].
  - destruct (String.eqb k k') eqn:E.
    + apply String.eqb_eq in E. subst. tauto.
    + apply String.eqb_neq in E. rewrite IH. split; [tauto|].
      intros [H|H]; [congruence | exact H].
Qed.

Lemma dict_contains_get k d : PyDict.contains k d = is_some (PyDict.get k d).
Proof. unfold PyDict.contains. now destruct (PyDict.get k d). Qed.

Lemma dict_keys_set_present k v d :
  PyDict.contains k d = true -> PyDict.keys (PyDict.set k v d) = PyDict.keys d.
Proof.
  unfold PyDict.contains.
  induction d as [|[k' v'] d IH]; simpl; [discriminate|].
  destruct (String.eqb k k') eqn:E; simpl.
  - apply String.eqb_eq in E. now subst.
  - intros H. now rewrite IH.
Qed.

Lemma dict_keys_set_absent k v d :
  PyDict.contains k d = false ->
  PyDict.keys (PyDict.set k v d) = (PyDict.keys d ++ [k])%list.
Proof.
  unfold PyDict.contains.
  induction d as [|[k' v'] d IH]; simpl; [reflexivity|].
  destruct (String.eqb k k') eqn:E; simpl; [discriminate|].
  intros H. now rewrite IH.
Qed.

Lemma dict_length_set k v d :
  length (PyDict.set k v d) =
  if PyDict.contains k d then length d else S (length d).
Proof.
  unfold PyDict.contains.
  induction d as [|[k' v'] d IH]; simpl; [reflexivity|].
  destruct (String.eqb k k') eqn:E; simpl; [reflexivity|].
  rewrite IH. now destruct (PyDict.get k d).
Qed.

Lemma dict_set_nonempty k v d : PyDict.set k v d <> [].
Proof. destruct d as [|[k' v'] d]; simpl; [|destruct (String.eqb k k')]; discriminate. Qed.

Lemma dict_keys_del k d :
  PyDict.keys (PyDict.del k d) =
  List.filter (fun k' => negb (String.eqb k k')) (PyDict.keys d).
Proof.
  unfold PyDict.del, PyDict.keys.
  induction d as [|[k' v'] d IH]; simpl; [reflexivity|].
  destruct (String.eqb k k'); simpl; now rewrite IH.
Qed.

Lemma dict_get_del_eq k d : PyDict.get k (PyDict.del k d) = None.
Proof.
  unfold PyDict.del.
  induction d as [|[k' v'] d IH]; simpl; [reflexivity|].
  destruct (String.eqb k k') eqn:E; simpl; [exact IH|]. now rewrite E.
Qed.

Lemma dict_get_del_ne k k' d :
  k <> k' -> PyDict.get k' (PyDict.del k d) = PyDict.get k' d.
Proof.
  intros Hne. unfold PyDict.del.
  induction d as [|[k0 v0] d IH]; simpl; [reflexivity|].
  destruct (String.eqb k k0) eqn:E; simpl.
  - apply String.eqb_eq in E. subst k0.
    apply String.eqb_neq in Hne. rewrite String.eqb_sym in Hne. now rewrite Hne.
  - now rewrite IH.
Qed.

Lemma dict_del_absent k d : PyDict.get k d = None -> PyDict.del k d = d.
Proof.
  unfold PyDict.del.
  induction d as [|[k' v'] d IH]; simpl; [reflexivity|].
  destruct (String.eqb k k') eqn:E; simpl; [discriminate|].
  intros H. now rewrite IH.
Qed.

Lemma dict_length_del k d : length (PyDict.del k d) <= length d.
Proof. apply List.filter_length_le. Qed.

Lemma dict_NoDup_del k d :
  List.NoDup (PyDict.keys d) -> List.NoDup (PyDict.keys (PyDict.del k d)).
Proof. rewrite dict_keys_del. apply List.NoDup_filter. Qed.

Lemma dict_NoDup_set k v d :
  List.NoDup (PyDict.keys d) -> List.NoDup (PyDict.keys (PyDict.set k v d)).
Proof.
  intros H. destruct (PyDict.contains k d) eqn:E.
  - now rewrite dict_keys_set_present.
  - rewrite dict_keys_set_absent by exact E.
    apply List.NoDup_app; auto.
    + constructor; [intros []|constructor].
    + intros x Hx [Hk|[]]. subst x.
      apply dict_contains_In in Hx. congruence.
Qed.

(** Deleting the only key of a dictionary without repeated keys is the one
    way a deletion empties it. *)
Lemma dict_del_empties k d :
  List.NoDup (PyDict.keys d) ->
  Nat.eqb (length (PyDict.del k d)) 0 && PyDict.contains k d =
  bool_decide (PyDict.keys d = [k]).
Proof.
  intros Hnd.
  destruct (bool_decide_reflect (PyDict.keys d = [k])) as [Hk|Hk].
  - destruct d as [|[k1 v1] [|[k2 v2] d]]; try discriminate.
    simpl in Hk. injection Hk as ->.
    unfold PyDict.contains, PyDict.del. simpl. now rewrite String.eqb_refl.
  - destruct d as [|[k1 v1] d]; [reflexivity|].
    unfold PyDict.contains, PyDict.del. simpl.
    destruct (String.eqb k k1) eqn:E; simpl; [|reflexivity].
    apply String.eqb_eq in E. subst k1.
    destruct d as [|[k2 v2] d]; [now elim Hk|]. simpl.
    destruct (String.eqb k k2) eqn:E2; simpl; [|reflexivity].
    apply String.eqb_eq in E2. subst k2.
    inversion Hnd as [|? ? Hnot _]. elim Hnot. now left.
Qed.

Lemma dict_get_update_other (d : PyDict.dict V) kvs k :
  ~ In k (List.map fst kvs) -> PyDict.get k (PyDict.update d kvs) = PyDict.get k d.
Proof.
  unfold PyDict.update. revert d.
  induction kvs as [|[k' v'] kvs IH]; intros d Hnot; simpl; [reflexivity|].
  rewrite IH by (intros H; apply Hnot; now right).
  apply dict_get_set_ne. intros ->. apply Hnot. now left.
Qed.

End DictFacts.

(** ** Traces *)

Lemma sends_of_app evs1 evs2 : sends_of (evs1 ++ evs2) = (sends_of evs1 ++ sends_of evs2)%list.
Proof.
  induction evs1 as [|ev evs1 IH]; simpl; [reflexivity|].
  destruct ev; simpl; now rewrite ?IH.
Qed.

Lemma starts_app evs1 evs2 : starts (evs1 ++ evs2) = starts evs1 + starts evs2.
Proof.
  induction evs1 as [|ev evs1 IH]; simpl; [reflexivity|].
  destruct ev; simpl; now rewrite ?IH.
Qed.

Lemma stops_app evs1 evs2 : stops (evs1 ++ evs2) = stops evs1 + stops evs2.
Proof.
  induction evs1 as [|ev evs1 IH]; simpl; [reflexivity|].
  destruct ev; simpl; now rewrite ?IH.
Qed.

Lemma sends_of_no_send evs :
  Forall (fun ev => is_send ev = false) evs -> sends_of evs = [].
Proof.
  induction 1 as [|ev evs Hev _ IH]; simpl; [reflexivity|].
  destruct ev; simpl in *; auto; discriminate.
Qed.

(** Unfolds the plumbing of [M], leaving the code's own case distinctions. *)
Ltac step_M :=
  unfold bind, ret, get_self, modify_self, logger, emit, time_time,
    ws_accept, ws_send_json, ws_close, ws_client_state in *;
  simpl in *.

(** ** [disconnect] *)

Lemma disconnect_absent client_id e w :
  PyDict.get client_id (active_connections (mgr w)) = None ->
  disconnect client_id e w = (tt, w).
Proof. intros H. unfold disconnect. step_M. now rewrite H. Qed.

Lemma disconnect_mgr client_id e w :
  mgr (snd (disconnect client_id e w)) = unregistered client_id (mgr w).
Proof.
  unfold disconnect, unregistered. step_M.
  rewrite dict_contains_get.
  destruct (PyDict.get client_id (active_connections (mgr w))) as [ws|] eqn:Hget;
    simpl; [|reflexivity].
  destruct (WebSocketState_eqb (client_state e ws) DISCONNECTED); simpl;
    [|destruct (close_ok e ws); simpl].
  all: destruct (PyDict.contains client_id (connection_metadata (mgr w))) eqn:Hmeta;
    simpl.
  all: destruct (Nat.eqb (length (PyDict.del client_id (active_connections (mgr w)))) 0);
    simpl.
  all: unfold set_heartbeat_task, set_connection_metadata, set_active_connections; simpl.
  all: destruct (heartbeat_task (mgr w)) eqn:Hhb; simpl; rewrite ?Hhb.
  all: try reflexivity.
  all: unfold PyDict.contains in Hmeta;
    destruct (PyDict.get client_id (connection_metadata (mgr w))) eqn:Hm;
    try discriminate; now rewrite (dict_del_absent _ _ Hm).
Qed.

Lemma disconnect_trace client_id e w :
  exists evs,
    trace (snd (disconnect client_id e w)) = (trace w ++ evs)%list /\
    Forall (fun ev => is_send ev = false) evs /\
    starts evs = 0 /\
    stops evs =
      if Nat.eqb (length (PyDict.del client_id (active_connections (mgr w)))) 0
         && PyDict.contains client_id (active_connections (mgr w))
         && is_some (heartbeat_task (mgr w))
      then 1 else 0.
Proof.
  unfold disconnect. step_M.
  rewrite dict_contains_get.
  destruct (PyDict.get client_id (active_connections (mgr w))) as [ws|] eqn:Hget;
    simpl.
  2:{ exists []. rewrite app_nil_r, andb_false_r. auto. }
  destruct (WebSocketState_eqb (client_state e ws) DISCONNECTED); simpl;
    [|destruct (close_ok e ws); simpl].
  all: destruct (PyDict.contains client_id (connection_metadata (mgr w))); simpl.
  all: destruct (Nat.eqb (length (PyDict.del client_id (active_connections (mgr w)))) 0);
    simpl.
  all: destruct (heartbeat_task (mgr w)); simpl.
  all: rewrite <- ?app_assoc; simpl.
  all: try (eexists; split; [reflexivity|]; repeat constructor).
  all: exists []; rewrite app_nil_r; repeat constructor.
Qed.

(** ** Consistency of the manager *)

Lemma dict_contains_keys {A B : Type} (k : string) (d1 : PyDict.dict A) (d2 : PyDict.dict B) :
  PyDict.keys d1 = PyDict.keys d2 -> PyDict.contains k d1 = PyDict.contains k d2.
Proof.
  intros Hk.
  destruct (PyDict.contains k d1) eqn:E1, (PyDict.contains k d2) eqn:E2; auto.
  - apply dict_contains_In in E1. rewrite Hk in E1.
    apply dict_contains_In in E1. congruence.
  - apply dict_contains_In in E2. rewrite <- Hk in E2.
    apply dict_contains_In in E2. congruence.
Qed.

Lemma dict_contains_length {V : Type} (k : string) (d : PyDict.dict V) :
  PyDict.contains k d = true -> Nat.eqb (length d) 0 = false.
Proof. destruct d; [discriminate | reflexivity]. Qed.

Lemma consistent_new (N : nat) : consistent N (new_manager N).
Proof. constructor; simpl; auto with arith. constructor. Qed.

Lemma consistent_unregistered N client_id s :
  consistent N s -> consistent N (unregistered client_id s).
Proof.
  intros [Hmax Hsize Hkeys Hnd Hhb]. unfold unregistered.
  destruct (PyDict.contains client_id (active_connections s)) eqn:Hin;
    [|now constructor].
  constructor; simpl.
  - exact Hmax.
  - pose proof (dict_length_del client_id (active_connections s)). lia.
  - rewrite !dict_keys_del. now rewrite Hkeys.
  - now apply dict_NoDup_del.
  - destruct (Nat.eqb (length (PyDict.del client_id (active_connections s))) 0);
      [reflexivity|].
    rewrite Hhb. now rewrite (dict_contains_length _ _ Hin).
Qed.

Lemma consistent_touch N client_id metadata s :
  consistent N s ->
  PyDict.contains client_id (connection_metadata s) = true ->
  consistent N
    (set_connection_metadata
       (PyDict.set client_id metadata (connection_metadata s)) s).
Proof.
  intros [Hmax Hsize Hkeys Hnd Hhb] Hin. constructor; simpl; auto.
  now rewrite dict_keys_set_present.
Qed.

(** The manager right after [connect] has stored the connection and started
    the heartbeat task if it had to. *)
Lemma consistent_registered N client_id websocket metadata s :
  consistent N s ->
  length (active_connections s) < N ->
  let s1 :=
    set_connection_metadata
      (PyDict.set client_id metadata (connection_metadata s))
      (set_active_connections
         (PyDict.set client_id websocket (active_connections s)) s) in
  consistent N
    (if Nat.eqb (length (active_connections s1)) 1 && negb (is_some (heartbeat_task s1))
     then set_heartbeat_task (Some HeartbeatLoop) s1 else s1).
Proof.
  intros [Hmax Hsize Hkeys Hnd Hhb] Hlt s1.
  assert (Hlen : length (active_connections s1) <= N).
  { simpl. rewrite dict_length_set.
    destruct (PyDict.contains client_id (active_connections s)); lia. }
  assert (Hk1 : PyDict.keys (active_connections s1) = PyDict.keys (connection_metadata s1)).
  { simpl. pose proof (dict_contains_keys client_id _ _ Hkeys) as Hc.
    destruct (PyDict.contains client_id (active_connections s)) eqn:E.
    - rewrite !dict_keys_set_present by congruence. exact Hkeys.
    - rewrite !dict_keys_set_absent by congruence. now rewrite Hkeys. }
  assert (Hnd1 : List.NoDup (PyDict.keys (active_connections s1))).
  { simpl. now apply dict_NoDup_set. }
  assert (Hlen1 : length (active_connections s1) =
                  if PyDict.contains client_id (active_connections s)
                  then length (active_connections s)
                  else S (length (active_connections s))).
  { simpl. apply dict_length_set. }
  destruct (Nat.eqb (length (active_connections s1)) 1
            && negb (is_some (heartbeat_task s1))) eqn:Hstart.
  - constructor; simpl; auto.
    apply andb_prop in Hstart as [H1 _]. apply Nat.eqb_eq in H1.
    simpl in H1. now rewrite H1.
  - constructor; auto.
    change (heartbeat_task s1) with (heartbeat_task s) in *.
    rewrite Hhb in *. rewrite Hlen1 in *.
    destruct (PyDict.contains client_id (active_connections s)) eqn:E.
    + now rewrite (dict_contains_length _ _ E).
    + destruct (active_connections s); simpl in *; [discriminate | reflexivity].
Qed.

Lemma unregistered_active client_id s :
  active_connections (unregistered client_id s) =
  PyDict.del client_id (active_connections s).
Proof.
  unfold unregistered. rewrite dict_contains_get.
  destruct (PyDict.get client_id (active_connections s)) eqn:E; simpl; auto.
  now rewrite dict_del_absent.
Qed.

(** Under consistency the heartbeat task is cancelled by exactly the
    unregistration that empties the registry. *)
Lemma disconnect_stops N client_id e w :
  consistent N (mgr w) ->
  exists evs,
    trace (snd (disconnect client_id e w)) = (trace w ++ evs)%list /\
    Forall (fun ev => is_send ev = false) evs /\
    starts evs = 0 /\
    stops evs =
      if negb (Nat.eqb (length (active_connections (mgr w))) 0)
         && Nat.eqb (length (active_connections (mgr (snd (disconnect client_id e w))))) 0
      then 1 else 0.
Proof.
  intros Hc. destruct (disconnect_trace client_id e w) as (evs & Ht & Hs & Hst & Hsp).
  exists evs. repeat split; auto.
  rewrite Hsp, disconnect_mgr, unregistered_active.
  rewrite (cons_heartbeat _ _ Hc).
  destruct (PyDict.contains client_id (active_connections (mgr w))) eqn:Hin.
  - rewrite (dict_contains_length _ _ Hin). simpl.
    now rewrite !andb_true_r.
  - rewrite dict_del_absent.
    + rewrite andb_false_r.
      now destruct (Nat.eqb (length (active_connections (mgr w))) 0).
    + rewrite dict_contains_get in Hin. now destruct (PyDict.get _ _).
Qed.

(** ** [send_personal_message] *)

Arguments disconnect : simpl never.


Lemma dict_contains_set {V : Type} (k : string) (v : V) (d : PyDict.dict V) :
  PyDict.contains k (PyDict.set k v d) = true.
Proof. now rewrite dict_contains_get, dict_get_set_eq. Qed.

Lemma send_consistent N client_id message e w :
  consistent N (mgr w) ->
  consistent N (mgr (snd (send_personal_message client_id message e w))).
Proof.
  intros Hc. unfold send_personal_message. step_M.
  destruct (PyDict.get client_id (active_connections (mgr w))) as [ws|]; simpl; auto.
  destruct (send_json_ok e ws); simpl.
  2:{ rewrite disconnect_mgr. now apply consistent_unregistered. }
  destruct (PyDict.get client_id (connection_metadata (mgr w))) as [md|] eqn:Hmd;
    simpl; auto.
  assert (Hin : PyDict.contains client_id (connection_metadata (mgr w)) = true)
    by now rewrite dict_contains_get, Hmd.
  match goal with |- context [PrimFloat.eqb ?x ?y] => destruct (PrimFloat.eqb x y) end;
    simpl.
  - rewrite disconnect_mgr. simpl.
    apply consistent_unregistered. now apply consistent_touch.
  - apply (consistent_touch N client_id _ _ (consistent_touch N client_id _ _ Hc Hin)).
    simpl. apply dict_contains_set.
Qed.

(** The events of one [send_personal_message]: at most one [send_json], no
    task is created, and the task is cancelled exactly when the call empties
    the registry. *)
Lemma send_trace N client_id message e w :
  consistent N (mgr w) ->
  exists evs,
    trace (snd (send_personal_message client_id message e w)) = (trace w ++ evs)%list /\
    sends_of evs =
      match PyDict.get client_id (active_connections (mgr w)) with
      | Some ws => [(ws, enhanced_message client_id message (clock e (ticks w)))]
      | None => []
      end /\
    starts evs = 0 /\
    stops evs =
      if negb (Nat.eqb (length (active_connections (mgr w))) 0)
         && Nat.eqb (length (active_connections
                       (mgr (snd (send_personal_message client_id message e w))))) 0
      then 1 else 0.
Proof.
  intros Hc.
  assert (Hfail : forall w1 ws,
    consistent N (mgr w1) ->
    active_connections (mgr w1) = active_connections (mgr w) ->
    trace w1 = (trace w ++ [EvSendJson ws
       (enhanced_message client_id message (clock e (ticks w)));
       EvLog ERROR client_id])%list ->
    exists evs,
      trace (snd (disconnect client_id e w1)) = (trace w ++ evs)%list /\
      sends_of evs = [(ws, enhanced_message client_id message (clock e (ticks w)))] /\
      starts evs = 0 /\
      stops evs =
        if negb (Nat.eqb (length (active_connections (mgr w))) 0)
           && Nat.eqb (length (active_connections (mgr (snd (disconnect client_id e w1))))) 0
        then 1 else 0).
  { intros w1 ws Hc1 Hact Htr.
    destruct (disconnect_stops N client_id e w1 Hc1) as (evs & Ht & Hs & Hst & Hsp).
    eexists. split; [rewrite Ht, Htr, <- app_assoc; reflexivity|].
    simpl. rewrite (sends_of_no_send _ Hs), Hst, Hsp, Hact. auto. }
  unfold send_personal_message. step_M.
  destruct (PyDict.get client_id (active_connections (mgr w))) as [ws|] eqn:Hget;
    simpl.
  2:{ exists [EvLog WARNING client_id]. repeat split.
      now destruct (Nat.eqb (length (active_connections (mgr w))) 0). }
  destruct (send_json_ok e ws); simpl.
  2:{ apply Hfail; simpl; auto. now rewrite <- app_assoc. }
  destruct (PyDict.get client_id (connection_metadata (mgr w))) as [md|] eqn:Hmd;
    simpl.
  2:{ eexists. split; [reflexivity|]. repeat split.
      now destruct (Nat.eqb (length (active_connections (mgr w))) 0). }
  match goal with |- context [PrimFloat.eqb ?x ?y] => destruct (PrimFloat.eqb x y) end;
    simpl.
  - apply Hfail; simpl; auto.
    + apply consistent_touch; auto. now rewrite dict_contains_get, Hmd.
    + now rewrite <- app_assoc.
  - eexists. split; [reflexivity|]. repeat split.
    now destruct (Nat.eqb (length (active_connections (mgr w))) 0).
Qed.

(** ** [connect] *)

Arguments send_personal_message : simpl never.

Lemma connect_rejected websocket client_id e w :
  max_connections (mgr w) <= length (active_connections (mgr w)) ->
  connect websocket client_id e w =
  (if close_ok e websocket then Returned false else Raised,
   {| mgr := mgr w; ticks := ticks w;
      trace := (trace w ++ EvClose websocket 1008 ::
                 if close_ok e websocket then [EvLog WARNING client_id] else [])%list |}).
Proof.
  intros H. apply Nat.leb_le in H. unfold connect. step_M. rewrite H. simpl.
  destruct (close_ok e websocket); simpl; [|reflexivity].
  now rewrite <- app_assoc.
Qed.

(** The world in which an admitted [connect] sends its welcome message. *)
Lemma connect_admitted websocket client_id e w :
  length (active_connections (mgr w)) < max_connections (mgr w) ->
  accept_ok e websocket = true ->
  exists w2 message,
    connect websocket client_id e w =
      (Returned true, snd (send_personal_message client_id message e w2)) /\
    (forall N, consistent N (mgr w) -> consistent N (mgr w2)) /\
    active_connections (mgr w2) <> [] /\
    trace w2 =
      (trace w ++ EvAccept websocket :: EvLog INFO client_id ::
         if Nat.eqb (length (PyDict.set client_id websocket (active_connections (mgr w)))) 1
            && negb (is_some (heartbeat_task (mgr w)))
         then [EvCreateTask] else [])%list.
Proof.
  intros Hlt Hacc.
  assert (Hleb : (max_connections (mgr w) <=? length (active_connections (mgr w)))%nat = false)
    by (apply Nat.leb_gt; exact Hlt).
  unfold connect. step_M. rewrite Hleb, Hacc. simpl.
  set (md := {| connected_at := clock e (ticks w); message_count := 0;
                last_message_time := clock e (S (ticks w));
                sacred_geometry_score := 0.618%float; phi_optimized := true |}).
  assert (Hreg : forall N, consistent N (mgr w) ->
            length (active_connections (mgr w)) < N).
  { intros N Hc. now rewrite <- (cons_max _ _ Hc). }
  destruct (Nat.eqb (length (PyDict.set client_id websocket (active_connections (mgr w)))) 1
            && negb (is_some (heartbeat_task (mgr w)))) eqn:Hstart; simpl.
  - eexists _, _. split; [reflexivity|]. simpl. split; [|split].
    + intros N Hc.
      pose proof (consistent_registered N client_id websocket md (mgr w) Hc (Hreg N Hc)) as H.
      simpl in H. rewrite Hstart in H. exact H.
    + apply dict_set_nonempty.
    + now rewrite <- !app_assoc.
  - eexists _, _. split; [reflexivity|]. simpl. split; [|split].
    + intros N Hc.
      pose proof (consistent_registered N client_id websocket md (mgr w) Hc (Hreg N Hc)) as H.
      simpl in H. rewrite Hstart in H. exact H.
    + apply dict_set_nonempty.
    + now rewrite <- !app_assoc.
Qed.

Lemma connect_refused websocket client_id e w :
  length (active_connections (mgr w)) < max_connections (mgr w) ->
  accept_ok e websocket = false ->
  connect websocket client_id e w =
  (Returned false,
   {| mgr := mgr w; ticks := ticks w;
      trace := (trace w ++ [EvAccept websocket; EvLog ERROR client_id])%list |}).
Proof.
  intros Hlt Hacc. apply Nat.leb_gt in Hlt. unfold connect. step_M.
  rewrite Hlt, Hacc. simpl. now rewrite <- app_assoc.
Qed.

Lemma connect_consistent N websocket client_id e w :
  consistent N (mgr w) ->
  consistent N (mgr (snd (connect websocket client_id e w))).
Proof.
  intros Hc.
  destruct (Nat.le_gt_cases (max_connections (mgr w)) (length (active_connections (mgr w))))
    as [Hfull|Hroom].
  - now rewrite connect_rejected.
  - destruct (accept_ok e websocket) eqn:Hacc.
    + destruct (connect_admitted websocket client_id e w Hroom Hacc)
        as (w2 & message & -> & Hc2 & _).
      simpl. apply send_consistent. auto.
    + now rewrite connect_refused.
Qed.

(** The heartbeat task is created by exactly the admitted [connect] that finds
    the registry empty; [connect] cancels it only when its welcome message
    fails and leaves the registry empty again. *)
Lemma connect_trace N websocket client_id e w :
  consistent N (mgr w) ->
  exists evs,
    trace (snd (connect websocket client_id e w)) = (trace w ++ evs)%list /\
    starts evs =
      (if Nat.eqb (length (active_connections (mgr w))) 0
          && (length (active_connections (mgr w)) <? N)%nat
          && accept_ok e websocket
       then 1 else 0) /\
    stops evs =
      (if (length (active_connections (mgr w)) <? N)%nat
          && accept_ok e websocket
          && Nat.eqb (length (active_connections
                        (mgr (snd (connect websocket client_id e w))))) 0
       then 1 else 0).
Proof.
  intros Hc. pose proof (cons_max _ _ Hc) as Hmax.
  destruct (Nat.le_gt_cases (max_connections (mgr w)) (length (active_connections (mgr w))))
    as [Hfull|Hroom].
  - rewrite connect_rejected by exact Hfull. simpl.
    rewrite Hmax in Hfull. apply Nat.ltb_ge in Hfull. rewrite Hfull.
    rewrite andb_false_r. simpl.
    eexists. split; [reflexivity|].
    destruct (close_ok e websocket); auto.
  - assert (Hltb : (length (active_connections (mgr w)) <? N)%nat = true)
      by (apply Nat.ltb_lt; now rewrite <- Hmax).
    rewrite Hltb, andb_true_r. simpl.
    destruct (accept_ok e websocket) eqn:Hacc.
    + destruct (connect_admitted websocket client_id e w Hroom Hacc)
        as (w2 & message & -> & Hc2 & Hne & Htr).
      simpl.
      destruct (send_trace N client_id message e w2 (Hc2 N Hc))
        as (evs & Ht & _ & Hst & Hsp).
      rewrite Ht, Htr, <- app_assoc. eexists. split; [reflexivity|].
      simpl. rewrite !starts_app, !stops_app, Hst, Hsp.
      assert (Hw2 : Nat.eqb (length (active_connections (mgr w2))) 0 = false)
        by (destruct (active_connections (mgr w2)); [now elim Hne | reflexivity]).
      rewrite Hw2. simpl.
      assert (Hcond :
        Nat.eqb (length (PyDict.set client_id websocket (active_connections (mgr w)))) 1
        && negb (is_some (heartbeat_task (mgr w))) =
        Nat.eqb (length (active_connections (mgr w))) 0).
      { rewrite (cons_heartbeat _ _ Hc), negb_involutive.
        destruct (active_connections (mgr w)); simpl; [reflexivity|].
        apply andb_false_r. }
      rewrite Hcond, andb_true_r.
      destruct (Nat.eqb (length (active_connections (mgr w))) 0); simpl; split; lia.
    + rewrite connect_refused by auto. simpl.
      rewrite andb_false_r. eexists. split; [reflexivity|]. auto.
Qed.

(** ** [broadcast] *)

(** The sending loop visits every item: it changes neither the manager nor
    the clock, attempts one [send_json] per addressed connection and collects
    the ids whose send raised. *)
Lemma broadcast_send_loop_spec items exclude_client broadcast_msg acc e w :
  broadcast_send_loop items exclude_client broadcast_msg acc e w =
  ((acc ++ failed_targets e exclude_client items)%list,
   {| mgr := mgr w; ticks := ticks w;
      trace := (trace w ++ pass_events e exclude_client broadcast_msg items)%list |}).
Proof.
  revert acc w.
  induction items as [|[client_id websocket] items IH]; intros acc w.
  - simpl. unfold ret, failed_targets, pass_events. simpl.
    rewrite !app_nil_r. now destruct w.
  - simpl. unfold failed_targets, pass_events, targets in *. simpl.
    destruct (is_excluded client_id exclude_client); simpl; [apply IH|].
    step_M. destruct (send_json_ok e websocket); simpl.
    + rewrite IH. simpl. now rewrite <- app_assoc.
    + rewrite IH. simpl. now rewrite <- !app_assoc.
Qed.

Lemma disconnect_all_consistent N clients e w :
  consistent N (mgr w) -> consistent N (mgr (snd (disconnect_all clients e w))).
Proof.
  revert w. induction clients as [|c clients IH]; intros w Hc; simpl; auto.
  unfold bind. simpl. apply IH. rewrite disconnect_mgr.
  now apply consistent_unregistered.
Qed.

Lemma disconnect_all_trace clients e w :
  exists evs,
    trace (snd (disconnect_all clients e w)) = (trace w ++ evs)%list /\
    Forall (fun ev => is_send ev = false) evs.
Proof.
  revert w. induction clients as [|c clients IH]; intros w; simpl.
  - exists []. now rewrite app_nil_r.
  - unfold bind. simpl.
    destruct (disconnect_trace c e w) as (evs1 & Ht1 & Hs1 & _).
    destruct (IH (snd (disconnect c e w))) as (evs2 & Ht2 & Hs2).
    exists (evs1 ++ evs2)%list. split.
    + now rewrite Ht2, Ht1, app_assoc.
    + apply Forall_app. now split.
Qed.

Lemma disconnect_all_get clients e w k :
  PyDict.get k (active_connections (mgr (snd (disconnect_all clients e w)))) =
  if existsb (String.eqb k) clients then None
  else PyDict.get k (active_connections (mgr w)).
Proof.
  revert w. induction clients as [|c clients IH]; intros w; simpl; auto.
  unfold bind. simpl. rewrite IH, disconnect_mgr, unregistered_active.
  destruct (existsb (String.eqb k) clients); [now rewrite orb_true_r|].
  rewrite orb_false_r. destruct (String.eqb k c) eqn:E.
  - apply String.eqb_eq in E. subst. apply dict_get_del_eq.
  - apply String.eqb_neq in E. apply dict_get_del_ne. congruence.
Qed.

Lemma broadcast_empty message exclude_client e w :
  active_connections (mgr w) = [] ->
  broadcast message exclude_client e w = (tt, w).
Proof. intros H. unfold broadcast. step_M. now rewrite H. Qed.

Lemma broadcast_nonempty message exclude_client e w :
  active_connections (mgr w) <> [] ->
  broadcast message exclude_client e w =
  disconnect_all (failed_targets e exclude_client (active_connections (mgr w))) e
    {| mgr := mgr w; ticks := S (ticks w);
       trace := (trace w ++
         pass_events e exclude_client
           (broadcast_message message (clock e (ticks w))
              (length (active_connections (mgr w))))
           (active_connections (mgr w)))%list |}.
Proof.
  intros H. unfold broadcast, bind, get_self, time_time. cbv beta zeta.
  change (fst (mgr w, w)) with (mgr w). change (snd (mgr w, w)) with w.
  destruct (active_connections (mgr w)) as [|kv items] eqn:E; [now elim H|].
  cbv beta iota zeta.
  now rewrite broadcast_send_loop_spec.
Qed.

Lemma broadcast_consistent N message exclude_client e w :
  consistent N (mgr w) ->
  consistent N (mgr (snd (broadcast message exclude_client e w))).
Proof.
  intros Hc. destruct (active_connections (mgr w)) eqn:E.
  - now rewrite broadcast_empty.
  - rewrite broadcast_nonempty by (rewrite E; discriminate).
    now apply disconnect_all_consistent.
Qed.

(** ** Sequences of calls *)

Lemma call_consistent N c e w :
  consistent N (mgr w) -> consistent N (mgr (snd (call c e w))).
Proof.
  intros Hc. destruct c; simpl.
  - unfold bind, ret. simpl. now apply connect_consistent.
  - rewrite disconnect_mgr. now apply consistent_unregistered.
  - unfold bind, ret. simpl. now apply send_consistent.
  - now apply broadcast_consistent.
  - unfold heartbeat_iteration. step_M. now apply broadcast_consistent.
Qed.

Lemma run_consistent N calls w :
  consistent N (mgr w) -> consistent N (mgr (run calls w)).
Proof.
  revert w. induction calls as [|[e c] calls IH]; intros w Hc; simpl; auto.
  apply IH. now apply call_consistent.
Qed.

Lemma reachable_consistent N calls : consistent N (mgr (run calls (initial_world N))).
Proof. apply run_consistent. apply consistent_new. Qed.

(** * The claims *)

(** When calls do not overlap, each running to its end before the next one
    begins, the registry holds at most [N] connections, and a [connect] made
    when it holds [N] or more closes the channel with the policy code 1008,
    does not return [True] (it returns [False], or the exception of that
    [close] escapes) and leaves the manager as it is. *)
Lemma capacity_of_completed_calls (N : nat) (calls : list (Env * Call)) :
  let w := run calls (initial_world N) in
  length (active_connections (mgr w)) <= N /\
  max_connections (mgr w) = N /\
  forall e websocket client_id,
    N <= length (active_connections (mgr w)) ->
    let r := connect websocket client_id e w in
    fst r = (if close_ok e websocket then Returned false else Raised) /\
    fst r <> Returned true /\
    mgr (snd r) = mgr w /\
    trace (snd r) =
      (trace w ++ EvClose websocket 1008 ::
         if close_ok e websocket then [EvLog WARNING client_id] else [])%list.
Proof.
  intros w. pose proof (reachable_consistent N calls) as Hc. fold w in Hc.
  split; [exact (cons_size _ _ Hc)|]. split; [exact (cons_max _ _ Hc)|].
  intros e websocket client_id Hfull r. subst r.
  rewrite connect_rejected by (rewrite (cons_max _ _ Hc); exact Hfull).
  simpl. repeat split. now destruct (close_ok e websocket).
Qed.

(** [connect] is its beginning followed at once by its resumption. *)
Lemma connect_uninterrupted websocket client_id e w :
  connect websocket client_id e w =
  let r := connect_begin websocket client_id e w in
  match fst r with
  | inl outcome => (outcome, snd r)
  | inr accepted => connect_resume websocket client_id accepted e (snd r)
  end.
Proof.
  unfold connect, connect_begin, connect_resume, register, bind, get_self, ret.
  cbv zeta. simpl.
  destruct (max_connections (mgr w) <=? length (active_connections (mgr w)))%nat.
  - simpl. now destruct (close_ok e websocket).
  - simpl. now destruct (accept_ok e websocket).
Qed.

(** C1, which the code does not keep: the registry size never exceeds the
    capacity, and a [connect] at capacity fails with the rejection.  The
    test of the limit and the registration are separated by
    [await websocket.accept()].  On a manager of capacity 1, the call for
    [a] is suspended in [accept] when the call for [b] begins: the registry
    is still empty, so [b] passes the test too; both are registered, both
    calls return [True], no channel is closed, and the registry holds 2
    connections.  The same happens at the capacity 161 of [ws_manager] with
    160 clients registered.  And at capacity, when the [close] of the
    rejection raises, the exception leaves [connect] instead of the result
    [False]. *)
Theorem C1_overlapping_connects_exceed_capacity :
  let e := quiet_env 0%float in
  let overlap (w : World) (ws_a ws_b : WebSocket) (a b : string) :=
    let begin_a := connect_begin ws_a a e w in
    let begin_b := connect_begin ws_b b e (snd begin_a) in
    let end_a := connect_resume ws_a a true e (snd begin_b) in
    let end_b := connect_resume ws_b b true e (snd end_a) in
    (fst begin_a, fst begin_b, fst end_a, fst end_b, snd end_b) in
  let r := overlap (initial_world 1) 1 2 "a" "b" in
  let full := run (crowd 160) (initial_world 161) in
  let r' := overlap full 200 201 "a" "b" in
  fst r = (inr true, inr true, Returned true, Returned true) /\
  max_connections (mgr (snd r)) = 1 /\
  active_connections (mgr (snd r)) = [("a", 1); ("b", 2)] /\
  closes_of (trace (snd r)) = [] /\
  fst (connect 3 "c" (unclosable_env 0%float) (snd r)) = Raised /\
  mgr (initial_world 161) = ws_manager /\
  length (active_connections (mgr full)) = 160 /\
  fst r' = (inr true, inr true, Returned true, Returned true) /\
  length (active_connections (mgr (snd r'))) = 162.
Proof. vm_compute. repeat split; reflexivity. Qed.

(** C10. After every completed operation the client ids that are keys of
    [active_connections] are the keys of [connection_metadata], in the same
    order: every registered connection has metadata and no metadata entry
    outlives its connection. *)
Theorem C10_metadata_keys_match (N : nat) (calls : list (Env * Call)) :
  let w := run calls (initial_world N) in
  PyDict.keys (active_connections (mgr w)) = PyDict.keys (connection_metadata (mgr w)) /\
  forall client_id,
    PyDict.contains client_id (active_connections (mgr w)) =
    PyDict.contains client_id (connection_metadata (mgr w)).
Proof.
  intros w. pose proof (reachable_consistent N calls) as Hc. fold w in Hc.
  split; [exact (cons_keys _ _ Hc)|].
  intros client_id. apply dict_contains_keys. exact (cons_keys _ _ Hc).
Qed.

(** C4. Between two calls the heartbeat task exists if and only if the
    registry is non-empty.  A [connect] creates the task exactly when it is
    admitted on an empty registry, once; a [disconnect] cancels it exactly
    when it removes the only connection, once, and never creates it.  The one
    other cancellation is that of the unregistration inside a [connect] whose
    welcome message fails and which leaves the registry empty again. *)
Theorem C4_heartbeat_iff_nonempty (N : nat) (calls : list (Env * Call)) :
  let w := run calls (initial_world N) in
  let size := length (active_connections (mgr w)) in
  is_some (heartbeat_task (mgr w)) = negb (Nat.eqb size 0) /\
  (forall e websocket client_id,
     let w' := snd (connect websocket client_id e w) in
     exists evs,
       trace w' = (trace w ++ evs)%list /\
       starts evs =
         (if Nat.eqb size 0 && (size <? N)%nat && accept_ok e websocket
          then 1 else 0) /\
       stops evs =
         (if (size <? N)%nat && accept_ok e websocket
             && Nat.eqb (length (active_connections (mgr w'))) 0
          then 1 else 0)) /\
  (forall e client_id,
     exists evs,
       trace (snd (disconnect client_id e w)) = (trace w ++ evs)%list /\
       starts evs = 0 /\
       stops evs =
         (if bool_decide (PyDict.keys (active_connections (mgr w)) = [client_id])
          then 1 else 0)).
Proof.
  intros w size. pose proof (reachable_consistent N calls) as Hc. fold w in Hc.
  split; [exact (cons_heartbeat _ _ Hc)|]. split.
  - intros e websocket client_id w'. subst w' size.
    exact (connect_trace N websocket client_id e w Hc).
  - intros e client_id.
    destruct (disconnect_trace client_id e w) as (evs & Ht & _ & Hst & Hsp).
    exists evs. split; [exact Ht|]. split; [exact Hst|].
    rewrite Hsp, (dict_del_empties _ _ (cons_nodup _ _ Hc)).
    destruct (bool_decide_reflect
                (PyDict.keys (active_connections (mgr w)) = [client_id])) as [Hk|Hk];
      [|reflexivity].
    rewrite (cons_heartbeat _ _ Hc).
    destruct (active_connections (mgr w)); [discriminate | reflexivity].
Qed.

(** C8. [disconnect] is idempotent: a second [disconnect] of the same client,
    whatever the outside world answers by then, changes nothing at all, and a
    [disconnect] of a client that is not registered is a no-op. *)
Theorem C8_disconnect_idempotent (client_id : string) (e1 e2 : Env) (w : World) :
  let w1 := snd (disconnect client_id e1 w) in
  disconnect client_id e2 w1 = (tt, w1) /\
  (PyDict.get client_id (active_connections (mgr w)) = None ->
   disconnect client_id e1 w = (tt, w)).
Proof.
  intros w1. split.
  - apply disconnect_absent. subst w1.
    rewrite disconnect_mgr, unregistered_active. apply dict_get_del_eq.
  - apply disconnect_absent.
Qed.

(** C8 at work: disconnecting an unknown client, and disconnecting the same
    client twice. *)
Lemma C8_witness :
  let w := run [(quiet_env 0%float, CallConnect 1 "a")] (initial_world 161) in
  PyDict.get "b" (active_connections (mgr w)) = None /\
  disconnect "b" (quiet_env 1%float) w = (tt, w) /\
  disconnect "a" (quiet_env 2%float) (snd (disconnect "a" (quiet_env 1%float) w)) =
    (tt, snd (disconnect "a" (quiet_env 1%float) w)).
Proof.
  intros w.
  assert (Habsent : PyDict.get "b" (active_connections (mgr w)) = None)
    by (vm_compute; reflexivity).
  split; [exact Habsent|]. split.
  - exact (proj2 (C8_disconnect_idempotent "b" (quiet_env 1%float) (quiet_env 1%float) w)
             Habsent).
  - exact (proj1 (C8_disconnect_idempotent "a" (quiet_env 1%float) (quiet_env 2%float) w)).
Defined.

(** C9. On an empty registry [broadcast] returns at once: no clock is read,
    no message is built or sent, and the registry, the metadata and the
    heartbeat task are untouched. *)
Theorem C9_broadcast_empty_noop (message : Message) (exclude_client : option string)
    (e : Env) (w : World) :
  active_connections (mgr w) = [] ->
  broadcast message exclude_client e w = (tt, w).
Proof.
  intros Hempty. unfold broadcast, bind, get_self. cbv beta zeta.
  change (fst (mgr w, w)) with (mgr w). change (snd (mgr w, w)) with w.
  rewrite Hempty. cbv beta iota. reflexivity.
Qed.

(** C9 at work: a broadcast on the manager as created. *)
Lemma C9_witness :
  active_connections (mgr (initial_world 161)) = [] /\
  broadcast (pong 0%float 1%float) None (quiet_env 1%float) (initial_world 161) =
    (tt, initial_world 161).
Proof.
  split; [reflexivity|].
  apply (C9_broadcast_empty_noop (pong 0%float 1%float) None (quiet_env 1%float)
           (initial_world 161)).
  reflexivity.
Defined.

Lemma registry_cases w :
  active_connections (mgr w) = [] \/ active_connections (mgr w) <> [].
Proof. destruct (active_connections (mgr w)); [left | right]; congruence. Qed.

Lemma pass_events_sends e exclude_client broadcast_msg items :
  sends_of (pass_events e exclude_client broadcast_msg items) =
  List.map (fun kv => (snd kv, broadcast_msg)) (targets exclude_client items).
Proof.
  unfold pass_events.
  induction (targets exclude_client items) as [|kv l IH]; simpl; [reflexivity|].
  rewrite sends_of_app, IH. now destruct (send_json_ok e (snd kv)).
Qed.

Lemma pass_events_no_cleanup e exclude_client broadcast_msg items :
  Forall (fun ev => is_cleanup ev = false)
    (pass_events e exclude_client broadcast_msg items).
Proof.
  unfold pass_events.
  induction (targets exclude_client items) as [|kv l IH]; simpl; [constructor|].
  constructor; [reflexivity|].
  destruct (send_json_ok e (snd kv)); simpl; auto.
Qed.

(** A pass during which no other coroutine runs: a [send_json] is attempted
    on every addressed connection whatever the outcome of the others; when
    the pass ends the manager is as it was, and only then are the connections
    whose send failed unregistered: the trace is the pass (sends and error
    logs only) followed by the clean-up (no send), and the registry loses
    exactly the failed ids. *)
Lemma uninterrupted_pass_isolates_failures (message : Message)
    (exclude_client : option string) (e : Env) (w : World) :
  let items := active_connections (mgr w) in
  let broadcast_msg := broadcast_message message (clock e (ticks w)) (length items) in
  let pass := pass_events e exclude_client broadcast_msg items in
  let failed := failed_targets e exclude_client items in
  let w' := snd (broadcast message exclude_client e w) in
  (forall acc w0,
     fst (broadcast_send_loop items exclude_client broadcast_msg acc e w0) =
       (acc ++ failed)%list /\
     mgr (snd (broadcast_send_loop items exclude_client broadcast_msg acc e w0)) = mgr w0) /\
  sends_of pass = List.map (fun kv => (snd kv, broadcast_msg)) (targets exclude_client items) /\
  Forall (fun ev => is_cleanup ev = false) pass /\
  (exists cleanup,
     trace w' = (trace w ++ pass ++ cleanup)%list /\
     Forall (fun ev => is_send ev = false) cleanup) /\
  (forall client_id,
     PyDict.get client_id (active_connections (mgr w')) =
     if existsb (String.eqb client_id) failed then None
     else PyDict.get client_id items).
Proof.
  cbv zeta. split; [|split; [|split; [|split]]].
  - intros acc w0. now rewrite broadcast_send_loop_spec.
  - apply pass_events_sends.
  - apply pass_events_no_cleanup.
  - destruct (registry_cases w) as [E|E].
    + exists []. rewrite broadcast_empty by exact E. rewrite E. simpl.
      split; [now rewrite app_nil_r | constructor].
    + rewrite broadcast_nonempty by exact E.
      match goal with |- context [disconnect_all ?c e ?w1] =>
        destruct (disconnect_all_trace c e w1) as (cleanup & Ht & Hs) end.
      exists cleanup. split; [|exact Hs].
      rewrite Ht. simpl. now rewrite <- app_assoc.
  - intros client_id. destruct (registry_cases w) as [E|E].
    + rewrite broadcast_empty by exact E. simpl. now rewrite E.
    + rewrite broadcast_nonempty by exact E. now rewrite disconnect_all_get.
Qed.

(** C2, which the code does not keep: a failed delivery aborts no delivery
    to the others, and the failed ids are unregistered once the pass is over.
    [broadcast] iterates [self.active_connections.items()], the dict itself
    and not a copy, across [await websocket.send_json].  Clients [a] and [b]
    are registered and the channel of [a] is broken.  Left alone, the pass
    addresses both and then unregisters [a].  When the endpoint of [a] runs
    its final [disconnect] while the failing send is awaited, or a client [c]
    is registered then, the iterator raises [RuntimeError] at the next step:
    the exception leaves [broadcast], [b] is never addressed, and the
    clean-up never runs, so that in the second case [a] stays registered. *)
Theorem C2_failed_send_aborts_pass :
  let w := run [(quiet_env 0%float, CallConnect 1 "a");
                (quiet_env 1%float, CallConnect 2 "b")] (initial_world 161) in
  let message := [("text", VStr "hello")] in
  let e := broken_env 1 5%float in
  let sent := broadcast_message message 5%float 2 in
  let alone := broadcast_live message None [] e w in
  let r := broadcast_live message None
             [Some (Disconnects (quiet_env 5%float) "a")] e w in
  let r' := broadcast_live message None
              [Some (Registers (quiet_env 5%float) 3 "c")] e w in
  active_connections (mgr w) = [("a", 1); ("b", 2)] /\
  fst alone = Completed /\
  sends_of (trace (snd alone)) = (sends_of (trace w) ++ [(1, sent); (2, sent)])%list /\
  active_connections (mgr (snd alone)) = [("b", 2)] /\
  fst r = Escaped /\
  sends_of (trace (snd r)) = (sends_of (trace w) ++ [(1, sent)])%list /\
  active_connections (mgr (snd r)) = [("b", 2)] /\
  fst r' = Escaped /\
  sends_of (trace (snd r')) = (sends_of (trace w) ++ [(1, sent)])%list /\
  active_connections (mgr (snd r')) = [("a", 1); ("b", 2); ("c", 3)].
Proof. vm_compute. repeat split; reflexivity. Qed.

Lemma targets_spec exclude_client items client_id (websocket : WebSocket) :
  In (client_id, websocket) (targets exclude_client items) <->
  In (client_id, websocket) items /\ exclude_client <> Some client_id.
Proof.
  unfold targets. rewrite List.filter_In. simpl. unfold is_excluded.
  destruct exclude_client as [x|]; simpl.
  - destruct (String.eqb client_id x) eqn:E; simpl.
    + apply String.eqb_eq in E. subst. split; [intros [_ H]; discriminate | tauto].
    + apply String.eqb_neq in E. split; intros [H _]; split; auto; congruence.
  - split; intros [H _]; split; auto; discriminate.
Qed.

(** A pass during which no other coroutine runs sends to exactly the
    connections registered when [broadcast] is called, the excluded client
    apart, in registry order, one message each: the payload with its [type]
    set to [broadcast], the connection count and the server timestamp (and
    [phi_constant]); every other field of the payload is kept. *)
Lemma uninterrupted_pass_recipients (message : Message)
    (exclude_client : option string) (e : Env) (w : World) :
  let items := active_connections (mgr w) in
  let broadcast_msg := broadcast_message message (clock e (ticks w)) (length items) in
  let w' := snd (broadcast message exclude_client e w) in
  sends_of (trace w') =
    (sends_of (trace w) ++
     List.map (fun kv => (snd kv, broadcast_msg)) (targets exclude_client items))%list /\
  (forall client_id websocket,
     In (client_id, websocket) (targets exclude_client items) <->
     In (client_id, websocket) items /\ exclude_client <> Some client_id) /\
  PyDict.get "type" broadcast_msg = Some (VStr "broadcast") /\
  PyDict.get "connection_count" broadcast_msg = Some (VInt (Z.of_nat (length items))) /\
  PyDict.get "server_timestamp" broadcast_msg = Some (VFloat (clock e (ticks w))) /\
  (forall k,
     ~ In k ["type"; "phi_constant"; "server_timestamp"; "connection_count"] ->
     PyDict.get k broadcast_msg = PyDict.get k message).
Proof.
  cbv zeta. split; [|split; [|split; [|split; [|split]]]].
  - destruct (registry_cases w) as [E|E].
    + rewrite broadcast_empty by exact E. rewrite E. simpl. now rewrite app_nil_r.
    + rewrite broadcast_nonempty by exact E.
      match goal with |- context [disconnect_all ?c e ?w1] =>
        destruct (disconnect_all_trace c e w1) as (cleanup & Ht & Hs) end.
      rewrite Ht. simpl. rewrite !sends_of_app, pass_events_sends.
      now rewrite (sends_of_no_send _ Hs), app_nil_r.
  - intros client_id websocket. apply targets_spec.
  - unfold broadcast_message, PyDict.update. simpl.
    rewrite !dict_get_set_ne by discriminate. apply dict_get_set_eq.
  - unfold broadcast_message, PyDict.update. simpl.
    apply dict_get_set_eq.
  - unfold broadcast_message, PyDict.update. simpl.
    rewrite !dict_get_set_ne by discriminate. apply dict_get_set_eq.
  - intros k Hk. unfold broadcast_message.
    now apply dict_get_update_other.
Qed.

(** C5, which the code does not keep: delivery is attempted to every
    connection registered when [broadcast] is called, the excluded one apart.
    Clients [a], [b] and [c] are registered, every channel works, and [a] is
    excluded.  Left alone, the pass addresses [b] and [c] with the enriched
    payload.  When [a] is unregistered while the send to [b] is awaited, the
    iterator over the dict raises [RuntimeError] at the next step and the
    exception leaves [broadcast]: [c], registered at the time of the call and
    not excluded, is never addressed.  The same when a client [d] is
    registered during that send. *)
Theorem C5_registered_client_not_addressed :
  let w := run [(quiet_env 0%float, CallConnect 1 "a");
                (quiet_env 1%float, CallConnect 2 "b");
                (quiet_env 2%float, CallConnect 3 "c")] (initial_world 161) in
  let message := [("text", VStr "hello")] in
  let e := quiet_env 5%float in
  let sent := broadcast_message message 5%float 3 in
  let alone := broadcast_live message (Some "a") [] e w in
  let r := broadcast_live message (Some "a") [Some (Disconnects e "a")] e w in
  let r' := broadcast_live message (Some "a") [Some (Registers e 4 "d")] e w in
  active_connections (mgr w) = [("a", 1); ("b", 2); ("c", 3)] /\
  PyDict.get "type" sent = Some (VStr "broadcast") /\
  PyDict.get "connection_count" sent = Some (VInt 3) /\
  PyDict.get "server_timestamp" sent = Some (VFloat 5) /\
  PyDict.get "text" sent = Some (VStr "hello") /\
  fst alone = Completed /\
  sends_of (trace (snd alone)) = (sends_of (trace w) ++ [(2, sent); (3, sent)])%list /\
  fst r = Escaped /\
  sends_of (trace (snd r)) = (sends_of (trace w) ++ [(2, sent)])%list /\
  fst r' = Escaped /\
  sends_of (trace (snd r')) = (sends_of (trace w) ++ [(2, sent)])%list.
Proof. vm_compute. repeat split; reflexivity. Qed.




(** [min(x, PHI)] is never greater than [PHI]. *)
Lemma py_min_cap (x : float) : PrimFloat.ltb PHI (py_min x PHI) = false.
Proof.
  unfold py_min. destruct (PrimFloat.ltb PHI x) eqn:E;
    [vm_compute; reflexivity | exact E].
Qed.

(** C3 as stated fails: the score drops when the message frequency drops.
    A client connects at time 0 (the welcome message is its first successful
    send), receives a message at time 1 and another one at time 99: both
    sends succeed, the score is [0.618 + 2/2 * 0.1] after the first and
    [0.618 + 3/100 * 0.1], which is smaller, after the second. *)
Lemma C3_counterexample :
  let w0 := run [(quiet_env 0%float, CallConnect 1 "c1")] (initial_world 161) in
  let r1 := send_personal_message "c1" (pong 1%float 1%float) (quiet_env 1%float) w0 in
  let r2 := send_personal_message "c1" (pong 99%float 99%float) (quiet_env 99%float) (snd r1) in
  fst r1 = true /\ fst r2 = true /\
  score_of "c1" (snd r1) = Some (0.618 + 2 / (1 - 0 + 1) * 0.1)%float /\
  score_of "c1" (snd r2) = Some (0.618 + 3 / (99 - 0 + 1) * 0.1)%float /\
  PrimFloat.ltb (0.618 + 3 / (99 - 0 + 1) * 0.1) (0.618 + 2 / (1 - 0 + 1) * 0.1) = true.
Proof. vm_compute. repeat split; reflexivity. Qed.

(** C3, amended. A successful [send_personal_message] to a client that has
    metadata counts the message and sets the score to
    [min(0.618 + frequency * 0.1, PHI)], where
    [frequency = message_count / (now - connected_at + 1)] and [now] is the
    third clock reading of the call; the score is never greater than [PHI]. *)
Theorem C3_quality_score_recomputed (client_id : string) (message : Message)
    (e : Env) (w : World) (metadata : Metadata) :
  PyDict.get client_id (connection_metadata (mgr w)) = Some metadata ->
  fst (send_personal_message client_id message e w) = true ->
  let now := clock e (S (S (ticks w))) in
  let count := (message_count metadata + 1)%Z in
  let frequency := (float_of_int count / (now - connected_at metadata + 1))%float in
  exists metadata',
    PyDict.get client_id
      (connection_metadata (mgr (snd (send_personal_message client_id message e w)))) =
      Some metadata' /\
    message_count metadata' = count /\
    connected_at metadata' = connected_at metadata /\
    sacred_geometry_score metadata' = py_min (0.618 + frequency * 0.1)%float PHI /\
    PrimFloat.ltb PHI (sacred_geometry_score metadata') = false.
Proof.
  intros Hmd Hret. cbv zeta. revert Hret.
  unfold send_personal_message. step_M.
  destruct (PyDict.get client_id (active_connections (mgr w))) as [ws|];
    simpl; [|discriminate].
  destruct (send_json_ok e ws); simpl; [|discriminate].
  rewrite Hmd. simpl.
  match goal with |- context [PrimFloat.eqb ?x ?y] => destruct (PrimFloat.eqb x y) end;
    simpl; [discriminate|].
  intros _. eexists. split; [apply dict_get_set_eq|]. simpl.
  repeat split. apply py_min_cap.
Qed.

(** C3 (amended) at work: the send at time 99 to the client connected at
    time 0. *)
Lemma C3_witness :
  let w := run [(quiet_env 0%float, CallConnect 1 "c1")] (initial_world 161) in
  let r := send_personal_message "c1" (pong 99%float 99%float) (quiet_env 99%float) w in
  exists metadata metadata',
    PyDict.get "c1" (connection_metadata (mgr w)) = Some metadata /\
    fst r = true /\
    PyDict.get "c1" (connection_metadata (mgr (snd r))) = Some metadata' /\
    PrimFloat.ltb PHI (sacred_geometry_score metadata') = false.
Proof.
  cbv zeta.
  set (w := run [(quiet_env 0%float, CallConnect 1 "c1")] (initial_world 161)).
  set (metadata := {| connected_at := 0%float; message_count := 1;
                      last_message_time := 0%float;
                      sacred_geometry_score := (0.618 + 1 / (0 - 0 + 1) * 0.1)%float;
                      phi_optimized := true |}).
  assert (Hmd : PyDict.get "c1" (connection_metadata (mgr w)) = Some metadata)
    by (vm_compute; reflexivity).
  assert (Hret : fst (send_personal_message "c1" (pong 99%float 99%float)
                        (quiet_env 99%float) w) = true)
    by (vm_compute; reflexivity).
  destruct (C3_quality_score_recomputed "c1" (pong 99%float 99%float)
              (quiet_env 99%float) w metadata Hmd Hret)
    as (metadata' & Hget & _ & _ & _ & Hcap).
  exists metadata, metadata'. repeat split; assumption.
Defined.

(** ** The rate limiter *)

Lemma check_rate_limit_with_eq limit window client_ip now
    (storage : gmap string (list float)) :
  let recent :=
    List.filter (fun t => PrimFloat.ltb (now - window)%float t)
      (default [] (storage !! client_ip)) in
  check_rate_limit_with limit window client_ip now storage =
  if (limit <=? List.length recent)%nat
  then (false, <[client_ip := recent]> storage)
  else (true, <[client_ip := (recent ++ [now])%list]> storage).
Proof.
  unfold check_rate_limit_with.
  destruct (storage !! client_ip) as [l|] eqn:E; simpl.
  - rewrite E. simpl. now rewrite insert_insert_eq.
  - rewrite lookup_insert_eq. simpl. now rewrite !insert_insert_eq.
Qed.

Lemma check_rate_limit_with_bounded limit window client_ip now
    (storage : gmap string (list float)) :
  (forall key, List.length (default [] (storage !! key)) <= limit) ->
  forall key,
    List.length
      (default [] (snd (check_rate_limit_with limit window client_ip now storage) !! key))
    <= limit.
Proof.
  intros Hinv key. rewrite check_rate_limit_with_eq. cbv zeta.
  set (recent := List.filter _ _).
  assert (Hrecent : List.length recent <= limit).
  { subst recent. etransitivity; [apply List.filter_length_le | apply Hinv]. }
  destruct (limit <=? List.length recent)%nat eqn:Hfull; simpl.
  - destruct (decide (client_ip = key)) as [->|Hne].
    + now rewrite lookup_insert_eq.
    + rewrite lookup_insert_ne by exact Hne. apply Hinv.
  - apply Nat.leb_gt in Hfull.
    destruct (decide (client_ip = key)) as [->|Hne].
    + rewrite lookup_insert_eq. simpl. rewrite List.length_app. simpl. lia.
    + rewrite lookup_insert_ne by exact Hne. apply Hinv.
Qed.

Lemma check_all_bounded limit window requests (storage : gmap string (list float)) :
  (forall key, List.length (default [] (storage !! key)) <= limit) ->
  forall key,
    List.length (default [] (snd (check_all limit window requests storage) !! key))
    <= limit.
Proof.
  revert storage. induction requests as [|[client_ip t] requests IH];
    intros storage Hinv key; simpl; [apply Hinv|].
  apply IH. now apply check_rate_limit_with_bounded.
Qed.

Lemma check_allowed limit window client_ip now
    (storage : gmap string (list float)) (recorded recent : list float) :
  default [] (storage !! client_ip) = recorded ->
  List.filter (fun t => PrimFloat.ltb (now - window)%float t) recorded = recent ->
  List.length recent < limit ->
  check_rate_limit_with limit window client_ip now storage =
  (true, <[client_ip := (recent ++ [now])%list]> storage).
Proof.
  intros Hrec Hfil Hlt. rewrite check_rate_limit_with_eq. cbv zeta.
  rewrite Hrec, Hfil. apply Nat.leb_gt in Hlt. now rewrite Hlt.
Qed.

Lemma check_denied limit window client_ip now
    (storage : gmap string (list float)) (recorded recent : list float) :
  default [] (storage !! client_ip) = recorded ->
  List.filter (fun t => PrimFloat.ltb (now - window)%float t) recorded = recent ->
  limit <= List.length recent ->
  check_rate_limit_with limit window client_ip now storage =
  (false, <[client_ip := recent]> storage).
Proof.
  intros Hrec Hfil Hle. rewrite check_rate_limit_with_eq. cbv zeta.
  rewrite Hrec, Hfil. apply Nat.leb_le in Hle. now rewrite Hle.
Qed.

Lemma check_all_cons limit window client_ip t requests
    (storage : gmap string (list float)) :
  check_all limit window ((client_ip, t) :: requests) storage =
  (fst (check_rate_limit_with limit window client_ip t storage) ::
     fst (check_all limit window requests
            (snd (check_rate_limit_with limit window client_ip t storage))),
   snd (check_all limit window requests
          (snd (check_rate_limit_with limit window client_ip t storage)))).
Proof. reflexivity. Qed.

Lemma lookup_recorded client_ip (l : list float) (storage : gmap string (list float)) :
  default [] (<[client_ip := l]> storage !! client_ip) = l.
Proof. now rewrite lookup_insert_eq. Qed.

(** C6 as stated fails at the edge of the window: a timestamp exactly
    [window] old is not older than [now - window], yet the code prunes it.
    With limit 3 and window 2, after three admitted requests at time 0 the
    check as the specification words it denies a request at time 2, and the
    code admits it: four calls within 2 seconds are all admitted.  The same
    happens with the constants of the module: after 161 admitted requests at
    time 0, the request at time 97 is admitted. *)
Lemma C6_counterexample :
  let requests := [("ip", 0%float); ("ip", 0%float); ("ip", 0%float)] in
  let storage := snd (check_all 3 2%float requests ∅) in
  let burst := repeat ("ip", 0%float) 161 in
  let full := snd (check_all RATE_LIMIT_REQUESTS RATE_LIMIT_WINDOW burst ∅) in
  storage !! "ip" = Some [0%float; 0%float; 0%float] /\
  fst (allow_spec 3 2%float "ip" 2%float storage) = false /\
  fst (check_rate_limit_with 3 2%float "ip" 2%float storage) = true /\
  fst (check_all 3 2%float (requests ++ [("ip", 2%float)]) ∅) = [true; true; true; true] /\
  fst (allow_spec RATE_LIMIT_REQUESTS RATE_LIMIT_WINDOW "ip" 97%float full) = false /\
  fst (check_rate_limit "ip" 97%float full) = true.
Proof. vm_compute. repeat split; reflexivity. Qed.

(** C6, amended. The check keeps exactly the timestamps of the key that are
    later than [now - window] (one that is exactly [window] old is pruned
    too); it then returns [False] without recording [now] if [limit] or more
    remain, and otherwise appends [now] and returns [True].  After any
    sequence of checks no key holds more than [limit] timestamps.  With
    limit 3, four requests of one key, each made while the earlier ones are
    still later than its cut-off, are answered true, true, true, false, and a
    request made when the three recorded ones are no longer later than its
    cut-off is answered true. *)
Theorem C6_sliding_window (limit : nat) (window : float) :
  (forall client_ip now (storage : gmap string (list float)),
     let recent :=
       List.filter (fun t => PrimFloat.ltb (now - window)%float t)
         (default [] (storage !! client_ip)) in
     check_rate_limit_with limit window client_ip now storage =
     if (limit <=? List.length recent)%nat
     then (false, <[client_ip := recent]> storage)
     else (true, <[client_ip := (recent ++ [now])%list]> storage)) /\
  (forall requests key,
     List.length (default [] (snd (check_all limit window requests ∅) !! key)) <= limit) /\
  (limit = 3 ->
   forall client_ip t1 t2 t3 t4 t5 (storage : gmap string (list float)),
     default [] (storage !! client_ip) = [] ->
     PrimFloat.ltb (t2 - window) t1 = true ->
     PrimFloat.ltb (t3 - window) t1 = true ->
     PrimFloat.ltb (t3 - window) t2 = true ->
     PrimFloat.ltb (t4 - window) t1 = true ->
     PrimFloat.ltb (t4 - window) t2 = true ->
     PrimFloat.ltb (t4 - window) t3 = true ->
     PrimFloat.ltb (t5 - window) t1 = false ->
     PrimFloat.ltb (t5 - window) t2 = false ->
     PrimFloat.ltb (t5 - window) t3 = false ->
     fst (check_all limit window
            [(client_ip, t1); (client_ip, t2); (client_ip, t3);
             (client_ip, t4); (client_ip, t5)] storage) =
     [true; true; true; false; true]).
Proof.
  split; [|split].
  - intros client_ip now storage. apply check_rate_limit_with_eq.
  - intros requests key. apply check_all_bounded.
    intros k. rewrite lookup_empty. simpl. lia.
  - intros -> client_ip t1 t2 t3 t4 t5 storage Hnew H21 H31 H32 H41 H42 H43 H51 H52 H53.
    rewrite check_all_cons.
    rewrite (check_allowed 3 window client_ip t1 storage [] []);
      [|exact Hnew | reflexivity | cbn; lia].
    cbn [fst snd app]. rewrite check_all_cons.
    rewrite (check_allowed 3 window client_ip t2 _ [t1] [t1]);
      [|apply lookup_recorded | cbn [List.filter]; now rewrite H21 | cbn; lia].
    cbn [fst snd app]. rewrite check_all_cons.
    rewrite (check_allowed 3 window client_ip t3 _ [t1; t2] [t1; t2]);
      [|apply lookup_recorded | cbn [List.filter]; now rewrite H31, H32 | cbn; lia].
    cbn [fst snd app]. rewrite check_all_cons.
    rewrite (check_denied 3 window client_ip t4 _ [t1; t2; t3] [t1; t2; t3]);
      [|apply lookup_recorded | cbn [List.filter]; now rewrite H41, H42, H43 | cbn; lia].
    cbn [fst snd app]. rewrite check_all_cons.
    rewrite (check_allowed 3 window client_ip t5 _ [t1; t2; t3] []);
      [|apply lookup_recorded | cbn [List.filter]; now rewrite H51, H52, H53 | cbn; lia].
    reflexivity.
Qed.

(** C6 (amended) at work: window 2, limit 3, requests at 0, 0.5, 1, 1.5
    and 10. *)
Lemma C6_witness :
  fst (check_all 3 2%float
         [("ip", 0%float); ("ip", 0.5%float); ("ip", 1%float);
          ("ip", 1.5%float); ("ip", 10%float)] ∅) =
  [true; true; true; false; true].
Proof.
  apply (proj2 (proj2 (C6_sliding_window 3 2%float)) eq_refl "ip"
           0%float 0.5%float 1%float 1.5%float 10%float ∅);
    vm_compute; reflexivity.
Defined.

(** * Further properties of the code *)

(** ** More on dictionaries *)

Section DictMore.
Context {V : Type}.
Implicit Types (k : string) (v : V) (d : PyDict.dict V).

Lemma dict_del_set k v d : PyDict.del k (PyDict.set k v d) = PyDict.del k d.
Proof.
  unfold PyDict.del.
  induction d as [|[k' v'] d IH]; simpl.
  - now rewrite String.eqb_refl.
  - destruct (String.eqb k k') eqn:E; simpl.
    + now rewrite String.eqb_refl.
    + now rewrite E, IH.
Qed.

Lemma dict_set_set k v1 v2 d : PyDict.set k v2 (PyDict.set k v1 d) = PyDict.set k v2 d.
Proof.
  induction d as [|[k' v'] d IH]; simpl.
  - now rewrite String.eqb_refl.
  - destruct (String.eqb k k') eqn:E; simpl.
    + now rewrite String.eqb_refl.
    + now rewrite E, IH.
Qed.

Lemma dict_get_filter_key (p : string -> bool) k d :
  PyDict.get k (List.filter (fun kv => p (fst kv)) d) =
  if p k then PyDict.get k d else None.
Proof.
  induction d as [|[k' v'] d IH]; simpl; [now destruct (p k)|].
  destruct (p k') eqn:Hp'; simpl.
  - destruct (String.eqb k k') eqn:E; [|exact IH].
    apply String.eqb_eq in E. subst. now rewrite Hp'.
  - rewrite IH. destruct (String.eqb k k') eqn:E; [|reflexivity].
    apply String.eqb_eq in E. subst. now rewrite Hp'.
Qed.

Lemma dict_get_In k v d : PyDict.get k d = Some v -> In (k, v) d.
Proof.
  induction d as [|[k' v'] d IH]; simpl; [discriminate|].
  destruct (String.eqb k k') eqn:E.
  - apply String.eqb_eq in E. intros [= ->]. subst. now left.
  - intros H. right. now apply IH.
Qed.

Lemma dict_In_get k v d :
  List.NoDup (PyDict.keys d) -> In (k, v) d -> PyDict.get k d = Some v.
Proof.
  induction d as [|[k' v'] d IH]; simpl; [tauto|].
  intros Hnd [Heq|Hin].
  - injection Heq as -> ->. now rewrite String.eqb_refl.
  - inversion Hnd as [|? ? Hnot Hnd']. subst.
    destruct (String.eqb k k') eqn:E; [|now apply IH].
    apply String.eqb_eq in E. subst. elim Hnot.
    change k' with (fst (k', v)). now apply List.in_map.
Qed.

Lemma dict_get_none_all d : (forall k, PyDict.get k d = None) -> d = [].
Proof.
  destruct d as [|[k v] d]; [reflexivity|]. intros H. specialize (H k).
  simpl in H. now rewrite String.eqb_refl in H.
Qed.

End DictMore.

Lemma filter_filter {A : Type} (f g : A -> bool) (l : list A) :
  List.filter f (List.filter g l) = List.filter (fun x => g x && f x) l.
Proof.
  induction l as [|x l IH]; simpl; [reflexivity|].
  destruct (g x); simpl; [destruct (f x)|]; now rewrite IH.
Qed.

(** ** [connect] once more *)

Lemma connect_admitted_world websocket client_id e w :
  length (active_connections (mgr w)) < max_connections (mgr w) ->
  accept_ok e websocket = true ->
  connect websocket client_id e w =
  (Returned true,
   snd (send_personal_message client_id
          (welcome_message client_id (heartbeat_interval (mgr w))
             (clock e (S (S (ticks w)))))
          e (registered_world websocket client_id e w))).
Proof.
  intros Hlt Hacc. apply Nat.leb_gt in Hlt.
  unfold connect, registered_world. step_M. rewrite Hlt, Hacc. simpl.
  destruct (Nat.eqb (length (PyDict.set client_id websocket (active_connections (mgr w)))) 1
            && negb (is_some (heartbeat_task (mgr w)))); simpl.
  - now rewrite <- !app_assoc.
  - now rewrite <- !app_assoc.
Qed.

(** The manager after a [send_personal_message]: as it was, with the metadata
    of the client rewritten, or with the client unregistered. *)
Lemma send_mgr_cases client_id message e w :
  let s := mgr w in
  let s' := mgr (snd (send_personal_message client_id message e w)) in
  s' = s \/
  exists metadata,
    let touched :=
      set_connection_metadata
        (PyDict.set client_id metadata (connection_metadata s)) s in
    PyDict.contains client_id (connection_metadata s) = true /\
    (s' = touched \/ s' = unregistered client_id touched) \/
    s' = unregistered client_id s.
Proof.
  cbv zeta. unfold send_personal_message. step_M.
  destruct (PyDict.get client_id (active_connections (mgr w))) as [ws|]; simpl;
    [|now left].
  destruct (send_json_ok e ws); simpl.
  2:{ right. exists {| connected_at := 0%float; message_count := 0;
                       last_message_time := 0%float;
                       sacred_geometry_score := 0%float; phi_optimized := true |}.
      right. now rewrite disconnect_mgr. }
  destruct (PyDict.get client_id (connection_metadata (mgr w))) as [md|] eqn:Hmd;
    simpl; [|now left].
  assert (Hin : PyDict.contains client_id (connection_metadata (mgr w)) = true)
    by now rewrite dict_contains_get, Hmd.
  match goal with |- context [PrimFloat.eqb ?x ?y] => destruct (PrimFloat.eqb x y) end;
    simpl.
  - right. eexists. left. split; [exact Hin|]. right.
    rewrite disconnect_mgr. reflexivity.
  - right. eexists. left. split; [exact Hin|]. left.
    unfold set_connection_metadata. simpl. now rewrite dict_set_set.
Qed.

Lemma unregistered_twice client_id s :
  unregistered client_id (unregistered client_id s) = unregistered client_id s.
Proof.
  unfold unregistered at 1.
  rewrite dict_contains_get, unregistered_active, dict_get_del_eq. reflexivity.
Qed.

Lemma unregistered_touched client_id metadata s :
  PyDict.contains client_id (active_connections s) = true ->
  unregistered client_id
    (set_connection_metadata
       (PyDict.set client_id metadata (connection_metadata s)) s) =
  unregistered client_id s.
Proof.
  intros Hin. unfold unregistered. simpl. rewrite Hin. now rewrite dict_del_set.
Qed.

Lemma unregistered_absent client_id s :
  PyDict.get client_id (active_connections s) = None ->
  unregistered client_id s = s.
Proof.
  intros H. unfold unregistered. now rewrite dict_contains_get, H.
Qed.

(** Unregistering the client an admitted [connect] has just stored gives the
    manager back as it was, when the id was free. *)
Lemma unregistered_registered N websocket client_id e w :
  consistent N (mgr w) ->
  PyDict.get client_id (active_connections (mgr w)) = None ->
  unregistered client_id (mgr (registered_world websocket client_id e w)) = mgr w.
Proof.
  intros [Hmax Hsize Hkeys Hnd Hhb] Habsent.
  assert (Hmeta : PyDict.get client_id (connection_metadata (mgr w)) = None).
  { pose proof (dict_contains_keys client_id _ _ Hkeys) as Hc.
    rewrite !dict_contains_get, Habsent in Hc.
    now destruct (PyDict.get client_id (connection_metadata (mgr w))). }
  unfold unregistered, registered_world. simpl.
  rewrite dict_contains_set, !dict_del_set.
  rewrite (dict_del_absent _ _ Habsent), (dict_del_absent _ _ Hmeta).
  rewrite dict_length_set, dict_contains_get, Habsent. simpl.
  destruct (mgr w) as [active metadata interval maxc rate task]. simpl in *.
  f_equal.
  destruct active as [|kv active]; simpl in *.
  - now destruct task.
  - reflexivity.
Qed.

(** X3. Registering a free id and unregistering it again gives the manager
    back exactly as it was (registry, metadata, heartbeat task), whatever the
    outside world answers to either call. *)
Theorem X3_connect_disconnect_round_trip (N : nat) (websocket : WebSocket)
    (client_id : string) (e1 e2 : Env) (w : World) :
  consistent N (mgr w) ->
  PyDict.get client_id (active_connections (mgr w)) = None ->
  mgr (snd (disconnect client_id e2 (snd (connect websocket client_id e1 w)))) = mgr w.
Proof.
  intros Hc Habsent. rewrite disconnect_mgr.
  destruct (Nat.le_gt_cases (max_connections (mgr w)) (length (active_connections (mgr w))))
    as [Hfull|Hroom].
  - rewrite connect_rejected by exact Hfull. simpl. now apply unregistered_absent.
  - destruct (accept_ok e1 websocket) eqn:Hacc.
    + rewrite connect_admitted_world by assumption. simpl.
      set (w2 := registered_world websocket client_id e1 w).
      assert (Hin : PyDict.contains client_id (active_connections (mgr w2)) = true)
        by apply dict_contains_set.
      assert (Hback : unregistered client_id (mgr w2) = mgr w)
        by (apply (unregistered_registered N); assumption).
      destruct (send_mgr_cases client_id
                  (welcome_message client_id (heartbeat_interval (mgr w))
                     (clock e1 (S (S (ticks w))))) e1 w2)
        as [H|(md & [(_ & [H|H])|H])]; rewrite H.
      * exact Hback.
      * now rewrite unregistered_touched.
      * now rewrite unregistered_twice, unregistered_touched.
      * now rewrite unregistered_twice.
    + rewrite connect_refused by assumption. simpl. now apply unregistered_absent.
Qed.

(** X3 at work: on the manager as created, with capacity 161. *)
Lemma X3_witness :
  mgr (snd (disconnect "a" (quiet_env 1%float)
              (snd (connect 1 "a" (quiet_env 0%float) (initial_world 161))))) =
  mgr (initial_world 161).
Proof.
  apply (X3_connect_disconnect_round_trip 161 1 "a" (quiet_env 0%float)
           (quiet_env 1%float) (initial_world 161)).
  - apply consistent_new.
  - reflexivity.
Defined.



(** ** Which channels are closed *)






(** ** Who survives a broadcast *)

Lemma del_as_filter {V : Type} (c : string) (d : PyDict.dict V) :
  PyDict.del c d = List.filter (fun kv => negb (String.eqb (fst kv) c)) d.
Proof.
  unfold PyDict.del. apply List.filter_ext. intros kv.
  now rewrite String.eqb_sym.
Qed.

Lemma unregistered_metadata N client_id s :
  consistent N s ->
  connection_metadata (unregistered client_id s) =
  PyDict.del client_id (connection_metadata s).
Proof.
  intros Hc. unfold unregistered.
  destruct (PyDict.contains client_id (active_connections s)) eqn:E; [reflexivity|].
  rewrite (dict_contains_keys client_id _ _ (cons_keys _ _ Hc)) in E.
  rewrite dict_contains_get in E. symmetry. apply dict_del_absent.
  now destruct (PyDict.get client_id (connection_metadata s)).
Qed.

Lemma disconnect_all_filter N clients e w :
  consistent N (mgr w) ->
  let keep := fun k : string => negb (existsb (String.eqb k) clients) in
  let w' := snd (disconnect_all clients e w) in
  active_connections (mgr w') =
    List.filter (fun kv => keep (fst kv)) (active_connections (mgr w)) /\
  connection_metadata (mgr w') =
    List.filter (fun kv => keep (fst kv)) (connection_metadata (mgr w)).
Proof.
  cbv zeta. revert w. induction clients as [|c clients IH]; intros w Hc; simpl.
  - split; symmetry; apply List.forallb_filter_id; apply forallb_forall; auto.
  - unfold bind. simpl.
    assert (Hc1 : consistent N (mgr (snd (disconnect c e w))))
      by (rewrite disconnect_mgr; now apply consistent_unregistered).
    destruct (IH _ Hc1) as [Ha Hm]. rewrite Ha, Hm, disconnect_mgr.
    rewrite unregistered_active, (unregistered_metadata N) by exact Hc.
    rewrite !del_as_filter, !filter_filter.
    split; apply List.filter_ext; intros kv; now rewrite negb_orb.
Qed.

Lemma keys_unique {V : Type} (d : PyDict.dict V) k v1 v2 :
  List.NoDup (PyDict.keys d) -> In (k, v1) d -> In (k, v2) d -> v1 = v2.
Proof.
  intros Hnd H1 H2.
  apply (dict_In_get _ _ _ Hnd) in H1. apply (dict_In_get _ _ _ Hnd) in H2.
  congruence.
Qed.

(** With distinct keys, an id is among the failed ones exactly when its own
    entry is addressed and its send fails. *)
Lemma failed_targets_spec e exclude_client items (kv : string * WebSocket) :
  List.NoDup (PyDict.keys items) ->
  In kv items ->
  existsb (String.eqb (fst kv)) (failed_targets e exclude_client items) =
  negb (is_excluded (fst kv) exclude_client) && negb (send_json_ok e (snd kv)).
Proof.
  intros Hnd Hin. unfold failed_targets, targets.
  destruct (negb (is_excluded (fst kv) exclude_client)
            && negb (send_json_ok e (snd kv))) eqn:E.
  - apply existsb_exists. exists (fst kv). split; [|apply String.eqb_refl].
    apply List.in_map. apply List.filter_In. split.
    + apply List.filter_In. split; [exact Hin|]. now apply andb_prop in E.
    + now apply andb_prop in E.
  - apply not_true_is_false. intros Hex.
    apply existsb_exists in Hex as (k & Hk & Heq).
    apply String.eqb_eq in Heq. subst k.
    apply List.in_map_iff in Hk as ([k' ws'] & Hfst & Hk). simpl in Hfst. subst k'.
    apply List.filter_In in Hk as [Hk Hfail].
    apply List.filter_In in Hk as [Hk Hexcl]. simpl in *.
    destruct kv as [k ws]. simpl in *.
    assert (ws' = ws) by (eapply keys_unique; eauto). subst ws'.
    rewrite Hexcl, Hfail in E. discriminate.
Qed.

Lemma broadcast_registry N message exclude_client e w :
  consistent N (mgr w) ->
  active_connections (mgr (snd (broadcast message exclude_client e w))) =
  List.filter
    (fun kv => is_excluded (fst kv) exclude_client || send_json_ok e (snd kv))
    (active_connections (mgr w)).
Proof.
  intros Hc. destruct (registry_cases w) as [E|E].
  - rewrite broadcast_empty by exact E. simpl. now rewrite E.
  - rewrite broadcast_nonempty by exact E.
    match goal with |- context [disconnect_all ?c e ?w1] =>
      destruct (disconnect_all_filter N c e w1 Hc) as [Ha _] end.
    simpl in Ha. rewrite Ha.
    apply List.filter_ext_in. intros kv Hin.
    rewrite (failed_targets_spec _ _ _ _ (cons_nodup _ _ Hc) Hin).
    now destruct (is_excluded (fst kv) exclude_client), (send_json_ok e (snd kv)).
Qed.

Lemma undisturbed_hd others : undisturbed others -> hd None others = None.
Proof. intros H. destruct H; simpl; auto. Qed.

Lemma undisturbed_tl others : undisturbed others -> undisturbed (tl others).
Proof. intros H. destruct H; simpl; [constructor | assumption]. Qed.

(** When nothing happens during its [await]s, the loop over the dict is the
    loop over the items the dict had when it began, and it completes. *)
Lemma broadcast_live_loop_undisturbed items :
  forall pre exclude_client broadcast_msg others acc e w,
    undisturbed others ->
    active_connections (mgr w) = (pre ++ items)%list ->
    broadcast_live_loop (length items) (length (pre ++ items)) (length pre)
      exclude_client broadcast_msg others acc e w =
    (PassCompleted (fst (broadcast_send_loop items exclude_client broadcast_msg acc e w)),
     snd (broadcast_send_loop items exclude_client broadcast_msg acc e w)).
Proof.
  induction items as [|[client_id websocket] items IH];
    intros pre exclude_client broadcast_msg others acc e w Hq Hw.
  - simpl. rewrite Hw, Nat.eqb_refl. reflexivity.
  - assert (Hsplit : (pre ++ (client_id, websocket) :: items)%list =
                     ((pre ++ [(client_id, websocket)]) ++ items)%list)
      by now rewrite <- app_assoc.
    assert (Hpos : S (length pre) = length (pre ++ [(client_id, websocket)])%list)
      by (rewrite List.length_app; simpl; lia).
    simpl broadcast_live_loop. rewrite Hw, Nat.eqb_refl. simpl negb. cbv iota.
    rewrite nth_error_app2 by lia. rewrite Nat.sub_diag. simpl nth_error. cbv iota.
    simpl broadcast_send_loop.
    destruct (is_excluded client_id exclude_client).
    + rewrite Hsplit, Hpos. apply IH; [exact Hq | now rewrite Hw].
    + cbv zeta. rewrite (undisturbed_hd _ Hq). unfold bind. simpl meanwhile.
      simpl fst. simpl snd.
      destruct (send_json_ok e websocket).
      * rewrite Hsplit, Hpos.
        apply IH; [now apply undisturbed_tl | simpl; now rewrite Hw].
      * rewrite Hsplit, Hpos.
        apply IH; [now apply undisturbed_tl | simpl; now rewrite Hw].
Qed.

(** A broadcast during which nothing else runs is [broadcast], and it
    returns. *)
Lemma broadcast_live_undisturbed message exclude_client others e w :
  undisturbed others ->
  broadcast_live message exclude_client others e w =
  (Completed, snd (broadcast message exclude_client e w)).
Proof.
  intros Hq. unfold broadcast_live, broadcast, bind, get_self.
  cbv beta zeta. simpl fst. simpl snd.
  destruct (active_connections (mgr w)) as [|kv items] eqn:E; [reflexivity|].
  rewrite (broadcast_live_loop_undisturbed (kv :: items) [] exclude_client _ others
             [] e (snd (time_time e w)) Hq) by (simpl; exact E).
  reflexivity.
Qed.

(** X6. A broadcast during whose [await]s no other coroutine touches the
    registry returns, and after it the registry holds exactly the connections
    that were excluded or whose send succeeded, in their order; the metadata
    of those clients is untouched (a broadcast counts no message and
    recomputes no score), and the metadata of the others is gone. *)
Theorem X6_broadcast_survivors (N : nat) (message : Message)
    (exclude_client : option string) (others : list (option Other))
    (e : Env) (w : World) :
  consistent N (mgr w) ->
  undisturbed others ->
  let r := broadcast_live message exclude_client others e w in
  let w' := snd r in
  fst r = Completed /\
  active_connections (mgr w') =
    List.filter
      (fun kv => is_excluded (fst kv) exclude_client || send_json_ok e (snd kv))
      (active_connections (mgr w)) /\
  forall client_id,
    PyDict.get client_id (connection_metadata (mgr w')) =
    if PyDict.contains client_id (active_connections (mgr w'))
    then PyDict.get client_id (connection_metadata (mgr w))
    else None.
Proof.
  intros Hc Hq. cbv zeta. rewrite (broadcast_live_undisturbed _ _ _ _ _ Hq).
  simpl fst. simpl snd. split; [reflexivity|].
  split; [now apply (broadcast_registry N)|].
  intros client_id.
  pose proof (dict_contains_keys client_id _ _ (cons_keys _ _ Hc)) as Hk.
  rewrite !dict_contains_get in Hk.
  destruct (registry_cases w) as [E|E].
  - rewrite broadcast_empty by exact E. simpl. rewrite E in *. simpl in *.
    now destruct (PyDict.get client_id (connection_metadata (mgr w))).
  - rewrite broadcast_nonempty by exact E.
    match goal with |- context [disconnect_all ?c e ?w1] =>
      destruct (disconnect_all_filter N c e w1 Hc) as [Ha Hm] end.
    simpl in Ha, Hm. rewrite Ha, Hm.
    rewrite (dict_get_filter_key
               (fun k => negb (existsb (String.eqb k)
                  (failed_targets e exclude_client (active_connections (mgr w)))))).
    rewrite dict_contains_get.
    rewrite (dict_get_filter_key
               (fun k => negb (existsb (String.eqb k)
                  (failed_targets e exclude_client (active_connections (mgr w)))))).
    destruct (negb (existsb (String.eqb client_id)
                (failed_targets e exclude_client (active_connections (mgr w)))));
      [|reflexivity].
    destruct (PyDict.get client_id (active_connections (mgr w))),
             (PyDict.get client_id (connection_metadata (mgr w)));
      simpl in *; congruence.
Qed.

(** X6 at work: clients [a] and [b], the channel of [b] broken. *)
Lemma X6_witness :
  let w := run [(quiet_env 0%float, CallConnect 1 "a");
                (quiet_env 1%float, CallConnect 2 "b")] (initial_world 161) in
  let r := broadcast_live [("text", VStr "hello")] None [None] (broken_env 2 5%float) w in
  fst r = Completed /\
  active_connections (mgr (snd r)) = [("a", 1)] /\
  PyDict.get "a" (connection_metadata (mgr (snd r))) =
    PyDict.get "a" (connection_metadata (mgr w)).
Proof.
  cbv zeta.
  set (w := run [(quiet_env 0%float, CallConnect 1 "a");
                 (quiet_env 1%float, CallConnect 2 "b")] (initial_world 161)).
  destruct (X6_broadcast_survivors 161 [("text", VStr "hello")] None [None]
              (broken_env 2 5%float) w (reachable_consistent 161 _)
              ltac:(repeat constructor))
    as (Hret & Ha & Hm).
  split; [exact Hret|]. split.
  - rewrite Ha. vm_compute. reflexivity.
  - rewrite (Hm "a"), Ha. vm_compute. reflexivity.
Defined.

(** ** The heartbeat loop *)








(** ** Statistics and the receive loop *)

Lemma keys_length {V : Type} (d : PyDict.dict V) : length (PyDict.keys d) = length d.
Proof. apply List.length_map. Qed.

(** In a consistent manager no division of [get_connection_stats] is by
    zero: it returns its dict, having read the clock and nothing else. *)
Lemma get_connection_stats_returns float_sum N e w :
  consistent N (mgr w) ->
  exists stats n,
    get_connection_stats float_sum e w =
      (Some stats, {| mgr := mgr w; ticks := n; trace := trace w |}) /\
    PyDict.get "active_connections" stats =
      Some (VInt (Z.of_nat (length (active_connections (mgr w))))) /\
    PyDict.get "max_connections" stats = Some (VInt (Z.of_nat N)) /\
    PyDict.get "total_messages_sent" stats =
      Some (VInt (total_message_count (connection_metadata (mgr w)))) /\
    (active_connections (mgr w) = [] ->
     PyDict.get "total_messages_sent" stats = Some (VInt 0) /\
     PyDict.get "average_connection_time" stats = Some (VInt 0) /\
     PyDict.get "average_sacred_geometry_score" stats = Some (VInt 0) /\
     PyDict.get "phi_optimization_factor" stats = Some (VFloat 0)).
Proof.
  intros Hc.
  assert (Hlen : length (connection_metadata (mgr w)) = length (active_connections (mgr w))).
  { rewrite <- !keys_length. now rewrite (cons_keys _ _ Hc). }
  unfold get_connection_stats. step_M. rewrite List.length_map, Hlen.
  rewrite (cons_max _ _ Hc).
  destruct (active_connections (mgr w)) as [|kv l] eqn:E; simpl.
  - eexists _, _. split; [reflexivity|]. unfold PyDict.literal, PyDict.update. simpl.
    repeat split.
    destruct (connection_metadata (mgr w)); [reflexivity | discriminate].
  - eexists _, _. split; [reflexivity|]. unfold PyDict.literal, PyDict.update. simpl.
    split; [reflexivity|]. split; [reflexivity|]. split; [reflexivity|].
    discriminate.
Qed.

(** X1. After any sequence of calls [get_connection_stats] returns (none of
    its divisions is by zero) and changes nothing in the manager; it reports
    the size of the registry, the configured capacity and the sum of the
    message counts; on an empty registry the total and both averages are the
    integer 0 and the optimization factor is 0.0. *)
Theorem X1_stats_after_any_calls (float_sum : list float -> float) (N : nat)
    (calls : list (Env * Call)) (e : Env) :
  let w := run calls (initial_world N) in
  let r := get_connection_stats float_sum e w in
  mgr (snd r) = mgr w /\
  trace (snd r) = trace w /\
  exists stats,
    fst r = Some stats /\
    PyDict.get "active_connections" stats =
      Some (VInt (Z.of_nat (length (active_connections (mgr w))))) /\
    PyDict.get "max_connections" stats = Some (VInt (Z.of_nat N)) /\
    PyDict.get "total_messages_sent" stats =
      Some (VInt (total_message_count (connection_metadata (mgr w)))) /\
    (active_connections (mgr w) = [] ->
     PyDict.get "total_messages_sent" stats = Some (VInt 0) /\
     PyDict.get "average_connection_time" stats = Some (VInt 0) /\
     PyDict.get "average_sacred_geometry_score" stats = Some (VInt 0) /\
     PyDict.get "phi_optimization_factor" stats = Some (VFloat 0)).
Proof.
  cbv zeta. pose proof (reachable_consistent N calls) as Hc.
  destruct (get_connection_stats_returns float_sum N e _ Hc)
    as (stats & n & Heq & Hfields).
  rewrite Heq. simpl. split; [reflexivity|]. split; [reflexivity|].
  exists stats. split; [reflexivity | exact Hfields].
Qed.

(** X1 at work: the statistics of the manager as created. *)
Lemma X1_witness :
  exists stats,
    fst (get_connection_stats (fun l => fold_left PrimFloat.add l 0%float)
           (quiet_env 0%float) (initial_world 161)) = Some stats /\
    PyDict.get "average_connection_time" stats = Some (VInt 0) /\
    PyDict.get "phi_optimization_factor" stats = Some (VFloat 0).
Proof.
  destruct (X1_stats_after_any_calls (fun l => fold_left PrimFloat.add l 0%float)
              161 [] (quiet_env 0%float))
    as (_ & _ & stats & Hret & _ & _ & _ & Hempty).
  exists stats. split; [exact Hret|].
  destruct (Hempty eq_refl) as (_ & Htime & _ & Hfactor).
  split; assumption.
Defined.



Lemma enhanced_message_other client_id message now k :
  k <> "phi_constant" -> k <> "client_id" -> k <> "server_timestamp" ->
  PyDict.get k (enhanced_message client_id message now) = PyDict.get k message.
Proof.
  intros H1 H2 H3. unfold enhanced_message. apply dict_get_update_other.
  simpl. intros [H|[H|[H|[]]]]; congruence.
Qed.

Lemma enhanced_message_added client_id message now :
  PyDict.get "phi_constant" (enhanced_message client_id message now) =
    Some (VFloat PHI) /\
  PyDict.get "client_id" (enhanced_message client_id message now) =
    Some (VStr client_id) /\
  PyDict.get "server_timestamp" (enhanced_message client_id message now) =
    Some (VFloat now).
Proof.
  unfold enhanced_message, PyDict.update. simpl. split; [|split].
  - rewrite !dict_get_set_ne by discriminate. apply dict_get_set_eq.
  - rewrite !dict_get_set_ne by discriminate. apply dict_get_set_eq.
  - apply dict_get_set_eq.
Qed.

(** X9. What the receive loop does with one received value.  A value that is
    not a JSON object raises: nothing is sent and nothing changes.  For an
    object, when the client is registered, exactly one message is sent, on the
    channel of that client.  The message sent has the type the dispatch
    gives, and the [client_id], [phi_constant] and [server_timestamp] that
    [send_personal_message] adds; a pong carries the [timestamp] of the ping
    when it has one (else the time of the server) and a response timestamp, a
    status response says [operational], a subscription is confirmed under
    the name asked for (else [all]), and an object of any other type is
    echoed whole with the time it was processed at. *)
Theorem X9_one_reply_per_message (float_sum : list float -> float) (N : nat)
    (client_id : string) (websocket : WebSocket) (data : Value) (e : Env) (w : World) :
  consistent N (mgr w) ->
  PyDict.get client_id (active_connections (mgr w)) = Some websocket ->
  let r := handle_message float_sum client_id data e w in
  match data with
  | VDict d =>
      fst r = true /\
      exists sent t,
        sends_of (trace (snd r)) = (sends_of (trace w) ++ [(websocket, sent)])%list /\
        PyDict.get "type" sent = Some (VStr (reply_type d)) /\
        PyDict.get "client_id" sent = Some (VStr client_id) /\
        PyDict.get "phi_constant" sent = Some (VFloat PHI) /\
        PyDict.get "server_timestamp" sent = Some (VFloat t) /\
        (reply_type d = "pong" ->
         PyDict.get "original_timestamp" sent =
           Some (default (VFloat (clock e (ticks w))) (PyDict.get "timestamp" d)) /\
         PyDict.get "response_timestamp" sent = Some (VFloat (clock e (S (ticks w))))) /\
        (reply_type d = "status_response" ->
         PyDict.get "system_status" sent = Some (VStr "operational") /\
         exists stats,
           fst (get_connection_stats float_sum e w) = Some stats /\
           PyDict.get "connection_stats" sent = Some (VDict stats)) /\
        (reply_type d = "subscription_confirmed" ->
         PyDict.get "subscription" sent =
           Some (default (VStr "all") (PyDict.get "subscription" d)) /\
         PyDict.get "phi_optimized" sent = Some (VBool true)) /\
        (reply_type d = "message_received" ->
         PyDict.get "original_message" sent = Some (VDict d) /\
         PyDict.get "processed_at" sent = Some (VFloat (clock e (ticks w))))
  | _ => r = (false, w)
  end.
Proof.
  intros Hc Hget. cbv zeta.
  destruct data as [| | | | |d]; try reflexivity.
  assert (Hsend : forall reply w1,
    mgr w1 = mgr w -> trace w1 = trace w ->
    sends_of (trace (snd (send_personal_message client_id reply e w1))) =
    (sends_of (trace w) ++
       [(websocket, enhanced_message client_id reply (clock e (ticks w1)))])%list).
  { intros reply w1 Hm Ht.
    assert (Hc1 : consistent N (mgr w1)) by now rewrite Hm.
    destruct (send_trace N client_id reply e w1 Hc1) as (evs & Htr & Hs & _).
    rewrite Htr, sends_of_app, Hs, Hm, Hget, Ht. reflexivity. }
  assert (Hadded := enhanced_message_added client_id).
  assert (Hfield : forall reply now k v,
            k <> "phi_constant" -> k <> "client_id" -> k <> "server_timestamp" ->
            PyDict.get k reply = Some v ->
            PyDict.get k (enhanced_message client_id reply now) = Some v).
  { intros reply now k v H1 H2 H3 Hv. now rewrite enhanced_message_other. }
  unfold handle_message, reply_type. cbv zeta.
  destruct (is_str _ "ping").
  { step_M. split; [reflexivity|]. eexists _, _.
    split; [apply Hsend; reflexivity|].
    split; [apply Hfield; [discriminate ..| reflexivity]|].
    split; [apply Hadded|]. split; [apply Hadded|]. split; [apply Hadded|].
    split; [intros _; split; (apply Hfield; [discriminate ..| reflexivity])|].
    repeat split; discriminate. }
  destruct (is_str _ "get_status").
  { destruct (get_connection_stats_returns float_sum N e w Hc)
      as (stats & n & Heq & _).
    unfold bind. rewrite Heq. step_M. split; [reflexivity|]. eexists _, _.
    split; [apply Hsend; reflexivity|].
    split; [apply Hfield; [discriminate ..| reflexivity]|].
    split; [apply Hadded|]. split; [apply Hadded|]. split; [apply Hadded|].
    split; [discriminate|].
    split; [intros _; split;
            [apply Hfield; [discriminate ..| reflexivity]
            |exists stats; split;
             [reflexivity | apply Hfield; [discriminate ..| reflexivity]]]|].
    split; discriminate. }
  destruct (is_str _ "subscribe").
  { step_M. split; [reflexivity|]. eexists _, _.
    split; [apply Hsend; reflexivity|].
    split; [apply Hfield; [discriminate ..| reflexivity]|].
    split; [apply Hadded|]. split; [apply Hadded|]. split; [apply Hadded|].
    split; [discriminate|]. split; [discriminate|].
    split; [intros _; split; (apply Hfield; [discriminate ..| reflexivity])|].
    discriminate. }
  step_M. split; [reflexivity|]. eexists _, _.
  split; [apply Hsend; reflexivity|].
  split; [apply Hfield; [discriminate ..| reflexivity]|].
  split; [apply Hadded|]. split; [apply Hadded|]. split; [apply Hadded|].
  split; [discriminate|]. split; [discriminate|]. split; [discriminate|].
  intros _; split; (apply Hfield; [discriminate ..| reflexivity]).
Qed.

(** X9 at work: a ping with timestamp 7 from the only client. *)
Lemma X9_witness :
  let w := run [(quiet_env 0%float, CallConnect 1 "c1")] (initial_world 161) in
  let ping := [("type", VStr "ping"); ("timestamp", VFloat 7)] in
  let r := handle_message (fun l => fold_left PrimFloat.add l 0%float) "c1"
             (VDict ping) (quiet_env 8%float) w in
  fst r = true /\
  exists sent,
    sends_of (trace (snd r)) = (sends_of (trace w) ++ [(1, sent)])%list /\
    PyDict.get "type" sent = Some (VStr "pong") /\
    PyDict.get "client_id" sent = Some (VStr "c1") /\
    PyDict.get "original_timestamp" sent = Some (VFloat 7).
Proof.
  cbv zeta.
  set (w := run [(quiet_env 0%float, CallConnect 1 "c1")] (initial_world 161)).
  destruct (X9_one_reply_per_message (fun l => fold_left PrimFloat.add l 0%float)
              161 "c1" 1 (VDict [("type", VStr "ping"); ("timestamp", VFloat 7)])
              (quiet_env 8%float) w (reachable_consistent 161 _))
    as (Hret & sent & t & Hsends & Htype & Hid & _ & _ & Hping & _).
  - vm_compute. reflexivity.
  - split; [exact Hret|]. exists sent.
    split; [exact Hsends|]. split; [exact Htype|]. split; [exact Hid|].
    exact (proj1 (Hping eq_refl)).
Defined.




(** ** The callers of [broadcast] *)

Lemma targets_none (items : list (string * WebSocket)) : targets None items = items.
Proof.
  unfold targets. apply List.forallb_filter_id. apply forallb_forall. reflexivity.
Qed.

(** The [send_json] calls of a broadcast. *)
Lemma broadcast_sends message exclude_client e w :
  sends_of (trace (snd (broadcast message exclude_client e w))) =
  (sends_of (trace w) ++
   List.map
     (fun kv => (snd kv,
                 broadcast_message message (clock e (ticks w))
                   (length (active_connections (mgr w)))))
     (targets exclude_client (active_connections (mgr w))))%list.
Proof.
  destruct (registry_cases w) as [E|E].
  - rewrite broadcast_empty by exact E. rewrite E. simpl. now rewrite app_nil_r.
  - rewrite broadcast_nonempty by exact E.
    match goal with |- context [disconnect_all ?c e ?w1] =>
      destruct (disconnect_all_trace c e w1) as (cleanup & Ht & Hs) end.
    rewrite Ht. simpl. rewrite !sends_of_app, pass_events_sends.
    now rewrite (sends_of_no_send _ Hs), app_nil_r.
Qed.

Lemma broadcast_message_type message now count :
  PyDict.get "type" (broadcast_message message now count) = Some (VStr "broadcast").
Proof.
  unfold broadcast_message, PyDict.update. simpl.
  rewrite !dict_get_set_ne by discriminate. apply dict_get_set_eq.
Qed.

Lemma broadcast_message_other message now count k :
  ~ In k ["type"; "phi_constant"; "server_timestamp"; "connection_count"] ->
  PyDict.get k (broadcast_message message now count) = PyDict.get k message.
Proof. intros Hk. unfold broadcast_message. now apply dict_get_update_other. Qed.

(** X10. The administrative [broadcast_message], when no other coroutine
    touches the registry during the broadcast, answers with [success] true.
    It sends one message to every registered connection, carrying the
    request under [content] but with the type [broadcast], not
    [admin_broadcast]; the [recipients] it reports is the number of
    connections left afterwards, that is of those whose send succeeded. *)
Theorem X10_admin_broadcast_report (N : nat) (message : Message)
    (others : list (option Other)) (e : Env) (w : World) :
  consistent N (mgr w) ->
  undisturbed others ->
  let r := Api.broadcast_message message others e w in
  let items := active_connections (mgr w) in
  PyDict.get "success" (fst r) = Some (VBool true) /\
  PyDict.get "recipients" (fst r) =
    Some (VInt (Z.of_nat
      (length (List.filter (fun kv => send_json_ok e (snd kv)) items)))) /\
  active_connections (mgr (snd r)) =
    List.filter (fun kv => send_json_ok e (snd kv)) items /\
  exists delivered,
    sends_of (trace (snd r)) =
      (sends_of (trace w) ++ List.map (fun kv => (snd kv, delivered)) items)%list /\
    PyDict.get "type" delivered = Some (VStr "broadcast") /\
    PyDict.get "content" delivered = Some (VDict message).
Proof.
  intros Hc Hq. cbv zeta. unfold Api.broadcast_message, bind.
  rewrite (broadcast_live_undisturbed _ _ _ _ _ Hq). step_M.
  set (payload := Api.admin_broadcast _ _).
  set (w1 := {| mgr := mgr w; ticks := S (ticks w); trace := trace w |}).
  assert (Hreg : active_connections (mgr (snd (broadcast payload None e w1))) =
                 List.filter (fun kv => send_json_ok e (snd kv))
                   (active_connections (mgr w))).
  { rewrite (broadcast_registry N) by exact Hc. reflexivity. }
  split; [reflexivity|]. rewrite Hreg. split; [reflexivity|]. split; [reflexivity|].
  eexists. split.
  - rewrite broadcast_sends, targets_none. reflexivity.
  - split; [apply broadcast_message_type|].
    rewrite broadcast_message_other; [reflexivity|].
    simpl. intros [H|[H|[H|[H|[]]]]]; discriminate.
Qed.

(** X10 at work: two clients, the channel of the second one broken. *)
Lemma X10_witness :
  let w := run [(quiet_env 0%float, CallConnect 1 "a");
                (quiet_env 1%float, CallConnect 2 "b")] (initial_world 161) in
  let r := Api.broadcast_message [("text", VStr "hello")] []
             (broken_env 2 5%float) w in
  PyDict.get "success" (fst r) = Some (VBool true) /\
  PyDict.get "recipients" (fst r) = Some (VInt 1).
Proof.
  cbv zeta.
  set (w := run [(quiet_env 0%float, CallConnect 1 "a");
                 (quiet_env 1%float, CallConnect 2 "b")] (initial_world 161)).
  destruct (X10_admin_broadcast_report 161 [("text", VStr "hello")] []
              (broken_env 2 5%float) w (reachable_consistent 161 _)
              ltac:(constructor))
    as (Hok & Hrec & _).
  split; [exact Hok|]. rewrite Hrec. vm_compute. reflexivity.
Defined.



(** X11. The three update functions, when no other coroutine touches the
    registry during the broadcast, return having sent one message to every
    registered connection.  What arrives has the type [broadcast]: the types
    [system_update], [plugin_update] and [analysis_progress] never reach a
    client; the other fields arrive as given, a missing or empty [data] or
    [details] as the empty dict, and [phi_factor] as [progress * PHI]. *)
Theorem X11_updates_arrive_as_broadcast (others : list (option Other))
    (e : Env) (w : World)
    (update_type plugin_name status analysis_id : string) (data : Message)
    (plugin_data details : option Message) (progress : float) :
  undisturbed others ->
  let items := active_connections (mgr w) in
  let arrives (r : Completion * World) (delivered : Message) :=
    fst r = Completed /\
    sends_of (trace (snd r)) =
      (sends_of (trace w) ++ List.map (fun kv => (snd kv, delivered)) items)%list /\
    PyDict.get "type" delivered = Some (VStr "broadcast") in
  (exists delivered,
     arrives (Api.send_system_update update_type data others e w) delivered /\
     PyDict.get "update_type" delivered = Some (VStr update_type) /\
     PyDict.get "data" delivered = Some (VDict data)) /\
  (exists delivered,
     arrives (Api.send_plugin_update plugin_name status plugin_data others e w)
       delivered /\
     PyDict.get "plugin_name" delivered = Some (VStr plugin_name) /\
     PyDict.get "status" delivered = Some (VStr status) /\
     PyDict.get "data" delivered = Some (VDict (default [] plugin_data))) /\
  (exists delivered,
     arrives (Api.send_analysis_progress analysis_id progress details others e w)
       delivered /\
     PyDict.get "analysis_id" delivered = Some (VStr analysis_id) /\
     PyDict.get "progress" delivered = Some (VFloat progress) /\
     PyDict.get "details" delivered = Some (VDict (default [] details)) /\
     PyDict.get "phi_factor" delivered = Some (VFloat (progress * PHI)%float)).
Proof.
  intros Hq. cbv zeta.
  assert (Hor : forall d : option Message, Api.or_empty d = default [] d)
    by (intros [[|kv l]|]; reflexivity).
  assert (Hkey : forall k, k <> "type" -> k <> "phi_constant" ->
            k <> "server_timestamp" -> k <> "connection_count" ->
            ~ In k ["type"; "phi_constant"; "server_timestamp"; "connection_count"]).
  { intros k H1 H2 H3 H4 [H|[H|[H|[H|[]]]]]; congruence. }
  split; [|split].
  - unfold Api.send_system_update, bind.
    rewrite (broadcast_live_undisturbed _ _ _ _ _ Hq). step_M.
    eexists. split; [split; [reflexivity | split]|].
    + rewrite broadcast_sends, targets_none. reflexivity.
    + apply broadcast_message_type.
    + split; (rewrite broadcast_message_other by (apply Hkey; discriminate));
        reflexivity.
  - unfold Api.send_plugin_update, bind.
    rewrite (broadcast_live_undisturbed _ _ _ _ _ Hq). step_M.
    eexists. split; [split; [reflexivity | split]|].
    + rewrite broadcast_sends, targets_none. reflexivity.
    + apply broadcast_message_type.
    + rewrite <- Hor.
      repeat split; (rewrite broadcast_message_other by (apply Hkey; discriminate));
        reflexivity.
  - unfold Api.send_analysis_progress, bind.
    rewrite (broadcast_live_undisturbed _ _ _ _ _ Hq). step_M.
    eexists. split; [split; [reflexivity | split]|].
    + rewrite broadcast_sends, targets_none. reflexivity.
    + apply broadcast_message_type.
    + rewrite <- Hor.
      repeat split; (rewrite broadcast_message_other by (apply Hkey; discriminate));
        reflexivity.
Qed.

(** X11 at work: a system update to two clients. *)
Lemma X11_witness :
  let w := run [(quiet_env 0%float, CallConnect 1 "a");
                (quiet_env 1%float, CallConnect 2 "b")] (initial_world 161) in
  exists delivered,
    sends_of (trace (snd (Api.send_system_update "load" [("cpu", VInt 3)] []
                            (quiet_env 5%float) w))) =
      (sends_of (trace w) ++ [(1, delivered); (2, delivered)])%list /\
    PyDict.get "type" delivered = Some (VStr "broadcast") /\
    PyDict.get "update_type" delivered = Some (VStr "load").
Proof.
  cbv zeta.
  set (w := run [(quiet_env 0%float, CallConnect 1 "a");
                 (quiet_env 1%float, CallConnect 2 "b")] (initial_world 161)).
  destruct (X11_updates_arrive_as_broadcast [] (quiet_env 5%float) w
              "load" "plugin" "ready" "analysis" [("cpu", VInt 3)] None None 0%float
              ltac:(constructor))
    as ((delivered & (_ & Hsends & Htype) & Hupd & _) & _).
  exists delivered. split; [|split; [exact Htype | exact Hupd]].
  rewrite Hsends. reflexivity.
Defined.

(** A step of the loop taken when the dict has another size raises. *)
Lemma broadcast_live_loop_resized remaining size pos exclude_client broadcast_msg
    others acc e w :
  length (active_connections (mgr w)) <> size ->
  broadcast_live_loop remaining size pos exclude_client broadcast_msg others acc e w =
  (DictChangedSize, w).
Proof.
  intros Hne. apply Nat.eqb_neq in Hne.
  destruct remaining; simpl; now rewrite Hne.
Qed.

(** What happens meanwhile sends nothing. *)
Lemma meanwhile_sends other w :
  sends_of (trace (meanwhile other w)) = sends_of (trace w).
Proof.
  destruct other as [[e client_id | e websocket client_id]|]; simpl; [| |reflexivity].
  - destruct (disconnect_trace client_id e w) as (evs & Ht & Hs & _).
    now rewrite Ht, sends_of_app, (sends_of_no_send _ Hs), app_nil_r.
  - unfold register. step_M.
    destruct (Nat.eqb _ 1 && negb (is_some (heartbeat_task (mgr w)))); simpl;
      rewrite !sends_of_app; simpl; now rewrite ?app_nil_r.
Qed.

(** X19. [broadcast] iterates the registry itself.  When the registry
    changes size while the first send of a pass is awaited (a client is
    unregistered or a new one registered by another coroutine), the pass ends
    there with the [RuntimeError] of the iterator, whether that send failed
    or not: the exception leaves [broadcast], the connection addressed first
    is the only one addressed, and there is no clean-up: the manager is as
    the other coroutine left it. *)
Theorem X19_broadcast_aborted_by_resize (message : Message)
    (exclude_client : option string) (other : option Other)
    (others : list (option Other)) (e : Env) (w : World)
    (client_id : string) (websocket : WebSocket) (rest : list (string * WebSocket)) :
  active_connections (mgr w) = (client_id, websocket) :: rest ->
  is_excluded client_id exclude_client = false ->
  let broadcast_msg :=
    broadcast_message message (clock e (ticks w)) (S (length rest)) in
  let w1 :=
    meanwhile other
      (snd (ws_send_json websocket broadcast_msg e (snd (time_time e w)))) in
  length (active_connections (mgr w1)) <> S (length rest) ->
  let r := broadcast_live message exclude_client (other :: others) e w in
  fst r = Escaped /\
  mgr (snd r) = mgr w1 /\
  sends_of (trace (snd r)) = (sends_of (trace w) ++ [(websocket, broadcast_msg)])%list.
Proof.
  intros Hw Hex broadcast_msg w1 Hsize. cbv zeta.
  assert (Hs1 : sends_of (trace w1) =
                (sends_of (trace w) ++ [(websocket, broadcast_msg)])%list).
  { subst w1. rewrite meanwhile_sends. simpl. now rewrite sends_of_app. }
  unfold broadcast_live. rewrite Hw. cbv zeta.
  change (fst (time_time e w)) with (clock e (ticks w)).
  change (length ((client_id, websocket) :: rest)) with (S (length rest)).
  fold broadcast_msg.
  simpl broadcast_live_loop. rewrite Hw.
  change (length ((client_id, websocket) :: rest)) with (S (length rest)).
  rewrite Nat.eqb_refl. simpl negb. cbv iota. simpl nth_error. cbv iota.
  rewrite Hex. cbv zeta. simpl hd. simpl tl. fold w1.
  destruct (send_json_ok e websocket).
  - rewrite broadcast_live_loop_resized by exact Hsize.
    simpl. split; [reflexivity|]. split; [reflexivity | exact Hs1].
  - rewrite broadcast_live_loop_resized by exact Hsize.
    simpl. split; [reflexivity|]. split; [reflexivity|].
    rewrite sends_of_app. simpl. rewrite app_nil_r. exact Hs1.
Qed.

(** X19 at work: [a] is unregistered while the send to it is awaited. *)
Lemma X19_witness :
  let w := run [(quiet_env 0%float, CallConnect 1 "a");
                (quiet_env 1%float, CallConnect 2 "b")] (initial_world 161) in
  let e := quiet_env 5%float in
  let r := broadcast_live [("text", VStr "hello")] None [Some (Disconnects e "a")] e w in
  fst r = Escaped /\
  sends_of (trace (snd r)) =
    (sends_of (trace w) ++
       [(1, broadcast_message [("text", VStr "hello")] 5%float 2)])%list.
Proof.
  cbv zeta.
  set (w := run [(quiet_env 0%float, CallConnect 1 "a");
                 (quiet_env 1%float, CallConnect 2 "b")] (initial_world 161)).
  destruct (X19_broadcast_aborted_by_resize [("text", VStr "hello")] None
              (Some (Disconnects (quiet_env 5%float) "a")) [] (quiet_env 5%float) w
              "a" 1 [("b", 2)])
    as (Hesc & _ & Hsends).
  - vm_compute. reflexivity.
  - reflexivity.
  - vm_compute. lia.
  - split; [exact Hesc | exact Hsends].
Defined.

(** ** [ConnectionManager] *)

Lemma remove_first_length x l :
  existsb (Nat.eqb x) l = true ->
  S (length (ConnectionManager.remove_first x l)) = length l.
Proof.
  induction l as [|y l IH]; simpl; [discriminate|].
  destruct (Nat.eqb x y); simpl; [reflexivity|].
  intros H. now rewrite IH.
Qed.

Lemma remove_first_absent x l :
  existsb (Nat.eqb x) l = false -> ConnectionManager.remove_first x l = l.
Proof.
  induction l as [|y l IH]; simpl; [reflexivity|].
  destruct (Nat.eqb x y); simpl; [discriminate|].
  intros H. now rewrite IH.
Qed.

Lemma cm_disconnect_counted websocket s :
  counted s -> counted (ConnectionManager.disconnect websocket s).
Proof.
  unfold counted, ConnectionManager.disconnect, ConnectionManager.registered.
  intros H.
  destruct (existsb (Nat.eqb websocket) (ConnectionManager.active_connections s)) eqn:E;
    [|exact H].
  simpl. apply remove_first_length in E. rewrite H.
  unfold WebSocket in *. lia.
Qed.

Lemma cm_disconnect_active websocket s :
  ConnectionManager.active_connections (ConnectionManager.disconnect websocket s) =
  ConnectionManager.remove_first websocket (ConnectionManager.active_connections s).
Proof.
  unfold ConnectionManager.disconnect, ConnectionManager.registered.
  destruct (existsb (Nat.eqb websocket) (ConnectionManager.active_connections s)) eqn:E;
    [reflexivity|].
  now rewrite remove_first_absent.
Qed.

Lemma cm_disconnect_sends websocket s :
  sends_of (ConnectionManager.events (ConnectionManager.disconnect websocket s)) =
  sends_of (ConnectionManager.events s).
Proof.
  unfold ConnectionManager.disconnect.
  destruct (ConnectionManager.registered websocket s); [|reflexivity].
  simpl. rewrite sends_of_app. simpl. apply app_nil_r.
Qed.

Lemma cm_disconnect_all failed s :
  let s' := fold_left (fun acc c => ConnectionManager.disconnect c acc) failed s in
  (counted s -> counted s') /\
  ConnectionManager.active_connections s' =
    fold_left (fun l c => ConnectionManager.remove_first c l) failed
      (ConnectionManager.active_connections s) /\
  sends_of (ConnectionManager.events s') = sends_of (ConnectionManager.events s).
Proof.
  cbv zeta. revert s. induction failed as [|c failed IH]; intros s; simpl; [auto|].
  destruct (IH (ConnectionManager.disconnect c s)) as (Hc & Ha & Hs).
  rewrite Ha, Hs, cm_disconnect_active, cm_disconnect_sends.
  split; [|split; reflexivity].
  intros H. apply Hc. now apply cm_disconnect_counted.
Qed.

Lemma cm_broadcast_loop connections message e disconnected s :
  let r := ConnectionManager.broadcast_loop connections message e disconnected s in
  fst r = (disconnected ++
           List.filter (fun c => negb (send_json_ok e c)) connections)%list /\
  ConnectionManager.active_connections (snd r) = ConnectionManager.active_connections s /\
  ConnectionManager.connection_count (snd r) = ConnectionManager.connection_count s /\
  sends_of (ConnectionManager.events (snd r)) =
    (sends_of (ConnectionManager.events s) ++
     List.map (fun c => (c, message)) connections)%list.
Proof.
  cbv zeta. revert disconnected s.
  induction connections as [|c connections IH]; intros disconnected s; simpl.
  - now rewrite !app_nil_r.
  - destruct (send_json_ok e c); simpl.
    + destruct (IH disconnected
                  {| ConnectionManager.active_connections :=
                       ConnectionManager.active_connections s;
                     ConnectionManager.connection_count :=
                       ConnectionManager.connection_count s;
                     ConnectionManager.events :=
                       (ConnectionManager.events s ++ [EvSendJson c message])%list |})
        as (H1 & H2 & H3 & H4).
      rewrite H1, H2, H3, H4. simpl. rewrite sends_of_app. simpl.
      now rewrite <- app_assoc.
    + destruct (IH (disconnected ++ [c])%list
                  {| ConnectionManager.active_connections :=
                       ConnectionManager.active_connections s;
                     ConnectionManager.connection_count :=
                       ConnectionManager.connection_count s;
                     ConnectionManager.events :=
                       ((ConnectionManager.events s ++ [EvSendJson c message]) ++
                        [EvLog ERROR "broadcast"])%list |})
        as (H1 & H2 & H3 & H4).
      rewrite H1, H2, H3, H4. simpl. rewrite !sends_of_app. simpl.
      now rewrite app_nil_r, <- !app_assoc.
Qed.



(** X12. In [ConnectionManager] the counter [connection_count] is the length
    of [active_connections] after any sequence of calls: the [max(0, ...)] of
    [disconnect] never has to act. *)
Theorem X12_connection_count_is_length (calls : list (Env * ConnectionManager.Call)) :
  let s := ConnectionManager.run calls ConnectionManager.init in
  ConnectionManager.connection_count s =
  Z.of_nat (length (ConnectionManager.active_connections s)).
Proof.
  cbv zeta. change (counted (ConnectionManager.run calls ConnectionManager.init)).
  assert (Hinit : counted ConnectionManager.init) by reflexivity.
  revert Hinit. generalize ConnectionManager.init.
  induction calls as [|[e c] calls IH]; intros s Hs; simpl; [exact Hs|].
  apply IH. destruct c as [ws|ws|message ws|message]; simpl.
  - unfold ConnectionManager.connect. destruct (accept_ok e ws); simpl; [|exact Hs].
    unfold counted in *. simpl. rewrite List.length_app. simpl. lia.
  - now apply cm_disconnect_counted.
  - unfold ConnectionManager.send_personal_message.
    destruct (send_json_ok e ws); [exact Hs|].
    apply cm_disconnect_counted. exact Hs.
  - unfold ConnectionManager.broadcast.
    apply (proj1 (cm_disconnect_all _ _)).
    destruct (cm_broadcast_loop (ConnectionManager.active_connections s) message e [] s)
      as (_ & Ha & Hc & _).
    unfold counted. now rewrite Ha, Hc.
Qed.


(** ** More on the rate limiter *)

Lemma filter_all {A : Type} (f : A -> bool) (l : list A) :
  (forall x, In x l -> f x = true) -> List.filter f l = l.
Proof.
  intros H. apply List.forallb_filter_id. now apply forallb_forall.
Qed.

(** A burst: requests of one client, each made while every earlier one is
    still later than its cut-off.  [recorded] is what the table holds for the
    client when the burst goes on. *)
Lemma burst_decisions limit window client_ip (times recorded : list float)
    (storage : gmap string (list float)) :
  default [] (storage !! client_ip) = recorded ->
  (forall a b, In a recorded -> In b times -> PrimFloat.ltb (b - window) a = true) ->
  ForallOrdPairs (fun a b => PrimFloat.ltb (b - window) a = true) times ->
  fst (check_all limit window (List.map (fun t => (client_ip, t)) times) storage) =
  (repeat true (Nat.min (limit - List.length recorded) (List.length times)) ++
   repeat false (List.length times - (limit - List.length recorded)))%list.
Proof.
  revert recorded storage.
  induction times as [|t times IH]; intros recorded storage Hrec Hin Hord.
  - simpl. now rewrite Nat.min_0_r.
  - simpl List.map. rewrite check_all_cons. cbn [fst snd].
    assert (Hsplit : Forall (fun b => PrimFloat.ltb (b - window) t = true) times /\
                     ForallOrdPairs (fun a b => PrimFloat.ltb (b - window) a = true) times)
      by (inversion Hord; auto).
    destruct Hsplit as [Hfirst Hrest].
    assert (Hkept : List.filter (fun x => PrimFloat.ltb (t - window) x) recorded = recorded).
    { apply filter_all. intros a Ha. apply Hin; [exact Ha | now left]. }
    destruct (Nat.le_gt_cases limit (List.length recorded)) as [Hfull|Hroom].
    + rewrite (check_denied limit window client_ip t storage recorded recorded)
        by assumption.
      cbn [fst snd].
      rewrite (IH recorded); [| apply lookup_recorded | | exact Hrest].
      * replace (limit - List.length recorded) with 0 by lia. simpl.
        now rewrite Nat.sub_0_r.
      * intros a b Ha Hb. apply Hin; [exact Ha | now right].
    + rewrite (check_allowed limit window client_ip t storage recorded recorded)
        by assumption.
      cbn [fst snd].
      rewrite (IH (recorded ++ [t])%list); [| apply lookup_recorded | | exact Hrest].
      * rewrite List.length_app. simpl List.length.
        replace (limit - List.length recorded)
          with (S (limit - (List.length recorded + 1))) by lia.
        reflexivity.
      * intros a b Ha Hb. apply in_app_or in Ha as [Ha|[<-|[]]].
        -- apply Hin; [exact Ha | now right].
        -- exact (proj1 (List.Forall_forall _ _) Hfirst b Hb).
Qed.

(** X14. Of a burst of requests of one client that starts on an empty record,
    each request made while all the earlier ones are still later than its
    cut-off, exactly the first [limit] are admitted and all the others are
    denied. *)
Theorem X14_burst_admits_limit (limit : nat) (window : float) (client_ip : string)
    (times : list float) (storage : gmap string (list float)) :
  default [] (storage !! client_ip) = [] ->
  ForallOrdPairs (fun a b => PrimFloat.ltb (b - window) a = true) times ->
  fst (check_all limit window (List.map (fun t => (client_ip, t)) times) storage) =
  (repeat true (Nat.min limit (List.length times)) ++
   repeat false (List.length times - limit))%list.
Proof.
  intros Hnew Hord.
  rewrite (burst_decisions limit window client_ip times [] storage Hnew);
    [|intros a b [] | exact Hord].
  simpl. now rewrite Nat.sub_0_r.
Qed.

(** X14 at work: limit 2, window 10, four requests within three seconds. *)
Lemma X14_witness :
  fst (check_all 2 10%float
         [("ip", 0%float); ("ip", 1%float); ("ip", 2%float); ("ip", 3%float)] ∅) =
  [true; true; false; false].
Proof.
  apply (X14_burst_admits_limit 2 10%float "ip" [0; 1; 2; 3]%float ∅).
  - reflexivity.
  - repeat (constructor; [repeat (constructor; [vm_compute; reflexivity|]);
                          constructor|]).
    constructor.
Defined.

(** X15. Clients do not affect one another: a check changes the record of no
    other client, and its decision depends on the record of its own client
    only.  The client checked has a record afterwards.  A denied check, made
    again at the same time, is denied again and changes nothing more. *)
Theorem X15_rate_limit_isolation (limit : nat) (window : float) (client_ip : string)
    (now : float) (storage : gmap string (list float)) :
  let r := check_rate_limit_with limit window client_ip now storage in
  (forall other, other <> client_ip -> snd r !! other = storage !! other) /\
  (forall storage2 : gmap string (list float),
     default [] (storage2 !! client_ip) = default [] (storage !! client_ip) ->
     fst (check_rate_limit_with limit window client_ip now storage2) = fst r) /\
  is_Some (snd r !! client_ip) /\
  (fst r = false ->
   check_rate_limit_with limit window client_ip now (snd r) = (false, snd r)).
Proof.
  cbv zeta. rewrite check_rate_limit_with_eq. cbv zeta.
  set (recent := List.filter _ _).
  split; [|split; [|split]].
  - intros other Hne.
    destruct (limit <=? List.length recent)%nat; simpl;
      now rewrite lookup_insert_ne by congruence.
  - intros storage2 Heq. rewrite check_rate_limit_with_eq. cbv zeta.
    rewrite Heq. fold recent.
    now destruct (limit <=? List.length recent)%nat.
  - destruct (limit <=? List.length recent)%nat; simpl;
      rewrite lookup_insert_eq; eauto.
  - destruct (limit <=? List.length recent)%nat eqn:Hfull; simpl; [|discriminate].
    intros _. apply Nat.leb_le in Hfull.
    rewrite (check_denied limit window client_ip now _ recent recent).
    + now rewrite insert_insert_eq.
    + apply lookup_recorded.
    + subst recent. rewrite filter_filter. apply List.filter_ext.
      intros t. now destruct (PrimFloat.ltb (now - window) t).
    + exact Hfull.
Qed.

(** X15 at work: a denied request of [a], with a record of [b] beside it. *)
Lemma X15_witness :
  let storage := snd (check_all 1 10%float [("a", 0%float); ("b", 1%float)] ∅) in
  let r := check_rate_limit_with 1 10%float "a" 2%float storage in
  fst r = false /\
  snd r !! "b" = storage !! "b" /\
  check_rate_limit_with 1 10%float "a" 2%float (snd r) = (false, snd r).
Proof.
  cbv zeta.
  set (storage := snd (check_all 1 10%float [("a", 0%float); ("b", 1%float)] ∅)).
  destruct (X15_rate_limit_isolation 1 10%float "a" 2%float storage)
    as (Hother & _ & _ & Hagain).
  assert (Hdenied : fst (check_rate_limit_with 1 10%float "a" 2%float storage) = false)
    by (vm_compute; reflexivity).
  split; [exact Hdenied|]. split.
  - apply Hother. discriminate.
  - exact (Hagain Hdenied).
Defined.

(** ** Authentication *)

(** X17. [login] issues a token for exactly one pair of credentials, the user
    [admin] with the password [sacred_geometry_2025]; the stored
    [hashed_password] plays no part.  The token is the fixed string
    [mock_token] and is announced to expire in 1800 seconds; every other
    pair is answered with status 401. *)
Theorem X17_login_accepts_one_pair (username password : string) :
  Endpoints.login username password =
  if String.eqb username "admin" && String.eqb password "sacred_geometry_2025"
  then inl {| Endpoints.access_token := "mock_token";
              Endpoints.token_type := "bearer";
              Endpoints.expires_in := 1800;
              Endpoints.token_phi_optimized := true |}
  else inr 401%Z.
Proof.
  unfold Endpoints.login, Endpoints.authenticate_user, Endpoints.fake_users_db.
  simpl. destruct (String.eqb username "admin"); simpl; [|reflexivity].
  destruct (String.eqb password "sacred_geometry_2025"); reflexivity.
Qed.

(** ** Heartbeat tasks never pile up *)

Lemma balanced_refl w : balanced w w.
Proof. exists []. now rewrite app_nil_r. Qed.

Lemma balanced_trans w1 w2 w3 : balanced w1 w2 -> balanced w2 w3 -> balanced w1 w3.
Proof.
  intros (evs1 & Ht1 & Hb1) (evs2 & Ht2 & Hb2). exists (evs1 ++ evs2)%list.
  split; [now rewrite Ht2, Ht1, app_assoc|].
  rewrite starts_app, stops_app. lia.
Qed.

Lemma balanced_quiet w w' evs :
  trace w' = (trace w ++ evs)%list -> starts evs = 0 -> stops evs = 0 ->
  active_connections (mgr w') = active_connections (mgr w) ->
  balanced w w'.
Proof.
  intros Ht Hs Hp Ha. exists evs. split; [exact Ht|].
  unfold occupied. rewrite Ha, Hs, Hp. reflexivity.
Qed.

Lemma balance_cases (a b : bool) :
  (a = true -> b = true) ->
  0 + (if a then 0 else 1) = (if negb a && b then 1 else 0) + (if b then 0 else 1).
Proof. destruct a, b; intros H; try reflexivity. discriminate (H eq_refl). Qed.

Lemma shrunk_stays_empty (n n' : nat) :
  n' <= n -> Nat.eqb n 0 = true -> Nat.eqb n' 0 = true.
Proof. intros Hle H. apply Nat.eqb_eq in H. apply Nat.eqb_eq. lia. Qed.

Lemma disconnect_balanced N client_id e w :
  consistent N (mgr w) -> balanced w (snd (disconnect client_id e w)).
Proof.
  intros Hc. destruct (disconnect_stops N client_id e w Hc) as (evs & Ht & _ & Hs & Hp).
  exists evs. split; [exact Ht|]. rewrite Hs, Hp. unfold occupied.
  apply balance_cases. apply shrunk_stays_empty.
  rewrite disconnect_mgr, unregistered_active. apply dict_length_del.
Qed.

Lemma send_balanced N client_id message e w :
  consistent N (mgr w) ->
  balanced w (snd (send_personal_message client_id message e w)).
Proof.
  intros Hc. destruct (send_trace N client_id message e w Hc) as (evs & Ht & _ & Hs & Hp).
  exists evs. split; [exact Ht|]. rewrite Hs, Hp. unfold occupied.
  apply balance_cases. apply shrunk_stays_empty.
  destruct (send_mgr_cases client_id message e w)
    as [H|(md & [(_ & [H|H])|H])]; rewrite H; simpl;
    rewrite ?unregistered_active; simpl; auto using dict_length_del.
Qed.

Lemma connect_balanced N websocket client_id e w :
  consistent N (mgr w) -> balanced w (snd (connect websocket client_id e w)).
Proof.
  intros Hc.
  destruct (connect_trace N websocket client_id e w Hc) as (evs & Ht & Hs & Hp).
  exists evs. split; [exact Ht|]. rewrite Hs, Hp. unfold occupied.
  destruct (Nat.le_gt_cases (max_connections (mgr w)) (length (active_connections (mgr w))))
    as [Hfull|Hroom].
  - rewrite connect_rejected by exact Hfull. simpl.
    rewrite (cons_max _ _ Hc) in Hfull. apply Nat.ltb_ge in Hfull. rewrite Hfull.
    rewrite andb_false_r. simpl.
    now destruct (Nat.eqb (length (active_connections (mgr w))) 0).
  - destruct (accept_ok e websocket) eqn:Hacc.
    + rewrite (cons_max _ _ Hc) in Hroom. apply Nat.ltb_lt in Hroom. rewrite Hroom.
      rewrite andb_true_r. simpl.
      destruct (Nat.eqb (length (active_connections (mgr w))) 0),
               (Nat.eqb (length (active_connections
                  (mgr (snd (connect websocket client_id e w))))) 0); reflexivity.
    + rewrite connect_refused by assumption. simpl. rewrite !andb_false_r. simpl.
      now destruct (Nat.eqb (length (active_connections (mgr w))) 0).
Qed.

Lemma disconnect_all_balanced N clients e w :
  consistent N (mgr w) -> balanced w (snd (disconnect_all clients e w)).
Proof.
  revert w. induction clients as [|c clients IH]; intros w Hc; simpl.
  - apply balanced_refl.
  - unfold bind. simpl.
    eapply balanced_trans; [apply (disconnect_balanced N); exact Hc|].
    apply IH. rewrite disconnect_mgr. now apply consistent_unregistered.
Qed.

Lemma pass_events_no_task e exclude_client broadcast_msg items :
  starts (pass_events e exclude_client broadcast_msg items) = 0 /\
  stops (pass_events e exclude_client broadcast_msg items) = 0.
Proof.
  unfold pass_events.
  induction (targets exclude_client items) as [|kv l [IH1 IH2]]; simpl; [auto|].
  rewrite starts_app, stops_app, IH1, IH2.
  destruct (send_json_ok e (snd kv)); auto.
Qed.

Lemma broadcast_balanced N message exclude_client e w :
  consistent N (mgr w) -> balanced w (snd (broadcast message exclude_client e w)).
Proof.
  intros Hc. destruct (registry_cases w) as [E|E].
  - rewrite broadcast_empty by exact E. apply balanced_refl.
  - rewrite broadcast_nonempty by exact E.
    eapply balanced_trans; [|apply (disconnect_all_balanced N); exact Hc].
    destruct (pass_events_no_task e exclude_client
                (broadcast_message message (clock e (ticks w))
                   (length (active_connections (mgr w))))
                (active_connections (mgr w))) as [Hs Hp].
    eapply balanced_quiet; simpl; eauto.
Qed.

Lemma call_balanced N c e w :
  consistent N (mgr w) -> balanced w (snd (call c e w)).
Proof.
  intros Hc. destruct c; simpl.
  - unfold bind, ret. simpl. now apply (connect_balanced N).
  - now apply (disconnect_balanced N).
  - unfold bind, ret. simpl. now apply (send_balanced N).
  - now apply (broadcast_balanced N).
  - unfold heartbeat_iteration. step_M.
    set (w1 := {| mgr := mgr w; ticks := S (ticks w); trace := trace w |}).
    match goal with |- balanced w ?w3 =>
      apply (balanced_trans w (snd (broadcast
        (PyDict.literal
           [("type", VStr "heartbeat");
            ("phi_interval", VFloat (heartbeat_interval (mgr w)));
            ("server_time", VFloat (clock e (ticks w)));
            ("active_connections",
             VInt (Z.of_nat (length (active_connections (mgr w)))))])
        None e w1)) w3) end.
    + eapply balanced_trans; [|apply (broadcast_balanced N); exact Hc].
      eapply (balanced_quiet w w1 []); simpl; auto. now rewrite app_nil_r.
    + eapply (balanced_quiet _ _ [EvLog DEBUG "heartbeat"]); simpl; auto.
Qed.

(** X16. Heartbeat tasks never pile up and none is left behind: after any
    sequence of calls the tasks created so far are the tasks cancelled so
    far, plus one exactly when the registry holds a connection. *)
Theorem X16_one_heartbeat_task_at_most (N : nat) (calls : list (Env * Call)) :
  let w := run calls (initial_world N) in
  starts (trace w) =
  stops (trace w) +
  (if Nat.eqb (length (active_connections (mgr w))) 0 then 0 else 1).
Proof.
  cbv zeta.
  assert (H : forall w0, consistent N (mgr w0) -> balanced w0 (run calls w0)).
  { induction calls as [|[e c] calls IH]; intros w0 Hc; simpl.
    - apply balanced_refl.
    - eapply balanced_trans; [apply (call_balanced N); exact Hc|].
      apply IH. now apply call_consistent. }
  destruct (H (initial_world N) (consistent_new N)) as (evs & Ht & Hb).
  rewrite Ht. simpl in *. unfold occupied in Hb. simpl in Hb.
  rewrite Nat.add_0_r in Hb. exact Hb.
Qed.

(** ** Every registered client has been welcomed *)

Lemma welcomed_unregistered client_id s :
  welcomed s -> welcomed (unregistered client_id s).
Proof.
  intros H k md. unfold unregistered.
  destruct (PyDict.contains client_id (active_connections s)); [|apply H].
  simpl. destruct (String.eqb_spec client_id k) as [->|Hne].
  - now rewrite dict_get_del_eq.
  - rewrite dict_get_del_ne by exact Hne. apply H.
Qed.

(** What a [send_personal_message] leaves in the metadata: the entries of
    the other clients as they were, and for the addressee, when it is
    registered and still has an entry, a count one higher. *)
Lemma send_counts client_id message e w k md' :
  PyDict.get k (connection_metadata
                  (mgr (snd (send_personal_message client_id message e w)))) = Some md' ->
  (k <> client_id /\ PyDict.get k (connection_metadata (mgr w)) = Some md') \/
  (k = client_id /\
   exists md,
     PyDict.get client_id (connection_metadata (mgr w)) = Some md /\
     ((PyDict.get client_id (active_connections (mgr w)) = None /\ md' = md) \/
      message_count md' = (message_count md + 1)%Z)).
Proof.
  assert (Hsame : PyDict.get k (connection_metadata (mgr w)) = Some md' ->
    PyDict.get client_id (active_connections (mgr w)) = None \/
    PyDict.get client_id (connection_metadata (mgr w)) = None ->
    (k <> client_id /\ PyDict.get k (connection_metadata (mgr w)) = Some md') \/
    (k = client_id /\
     exists md,
       PyDict.get client_id (connection_metadata (mgr w)) = Some md /\
       ((PyDict.get client_id (active_connections (mgr w)) = None /\ md' = md) \/
        message_count md' = (message_count md + 1)%Z))).
  { intros Hk Hor. destruct (String.eqb_spec k client_id) as [->|Hne]; [|now left].
    right. split; [reflexivity|]. exists md'. split; [exact Hk|].
    destruct Hor as [Ha|Hm]; [now left | congruence]. }
  assert (Hgone : forall m : PyDict.dict Metadata,
    (forall k', k' <> client_id ->
       PyDict.get k' m = PyDict.get k' (connection_metadata (mgr w))) ->
    PyDict.get k (PyDict.del client_id m) = Some md' ->
    k <> client_id /\ PyDict.get k (connection_metadata (mgr w)) = Some md').
  { intros m Hm Hk. destruct (String.eqb_spec client_id k) as [->|Hne].
    - now rewrite dict_get_del_eq in Hk.
    - rewrite dict_get_del_ne in Hk by exact Hne.
      split; [congruence|]. rewrite <- Hm by congruence. exact Hk. }
  unfold send_personal_message. step_M.
  destruct (PyDict.get client_id (active_connections (mgr w))) as [ws|] eqn:Hget;
    simpl; [|intros Hk; apply Hsame; auto].
  destruct (send_json_ok e ws); simpl.
  2:{ rewrite disconnect_mgr. unfold unregistered. simpl.
      rewrite dict_contains_get, Hget. simpl. intros Hk. left.
      now apply (Hgone (connection_metadata (mgr w))). }
  destruct (PyDict.get client_id (connection_metadata (mgr w))) as [md|] eqn:Hmd;
    simpl; [|intros Hk; apply Hsame; auto].
  match goal with |- context [PrimFloat.eqb ?x ?y] => destruct (PrimFloat.eqb x y) end;
    simpl.
  - rewrite disconnect_mgr. unfold unregistered. simpl.
    rewrite dict_contains_get, Hget. simpl. intros Hk. left.
    eapply Hgone; [|exact Hk].
    intros k' Hne. apply dict_get_set_ne. congruence.
  - intros Hk. destruct (String.eqb_spec k client_id) as [->|Hne].
    + rewrite dict_get_set_eq in Hk. injection Hk as <-.
      right. split; [reflexivity|]. exists md. split; [reflexivity|]. now right.
    + rewrite !dict_get_set_ne in Hk by congruence. now left.
Qed.

Lemma send_welcomed client_id message e w :
  welcomed (mgr w) -> welcomed (mgr (snd (send_personal_message client_id message e w))).
Proof.
  intros H k md' Hk.
  destruct (send_counts _ _ _ _ _ _ Hk) as [[_ Hold]|(-> & md & Hold & [[_ ->]|Hc])].
  - exact (H _ _ Hold).
  - exact (H _ _ Hold).
  - pose proof (H _ _ Hold). lia.
Qed.

Lemma connect_welcomed websocket client_id e w :
  welcomed (mgr w) -> welcomed (mgr (snd (connect websocket client_id e w))).
Proof.
  intros H.
  destruct (Nat.le_gt_cases (max_connections (mgr w)) (length (active_connections (mgr w))))
    as [Hfull|Hroom].
  - now rewrite connect_rejected.
  - destruct (accept_ok e websocket) eqn:Hacc; [|now rewrite connect_refused].
    rewrite connect_admitted_world by assumption. simpl.
    intros k md' Hk.
    destruct (send_counts _ _ _ _ _ _ Hk) as [[Hne Hold]|(-> & md & Hold & Hcase)].
    + unfold registered_world in Hold. simpl in Hold.
      rewrite dict_get_set_ne in Hold by congruence. exact (H _ _ Hold).
    + unfold registered_world in Hold, Hcase. simpl in Hold, Hcase.
      rewrite dict_get_set_eq in Hold. rewrite dict_get_set_eq in Hcase.
      injection Hold as <-.
      destruct Hcase as [[Habs _]|Hc]; [discriminate|]. simpl in Hc. lia.
Qed.

Lemma disconnect_all_welcomed clients e w :
  welcomed (mgr w) -> welcomed (mgr (snd (disconnect_all clients e w))).
Proof.
  revert w. induction clients as [|c clients IH]; intros w H; simpl; auto.
  unfold bind. simpl. apply IH. rewrite disconnect_mgr.
  now apply welcomed_unregistered.
Qed.

Lemma broadcast_welcomed message exclude_client e w :
  welcomed (mgr w) -> welcomed (mgr (snd (broadcast message exclude_client e w))).
Proof.
  intros H. destruct (registry_cases w) as [E|E].
  - now rewrite broadcast_empty.
  - rewrite broadcast_nonempty by exact E. now apply disconnect_all_welcomed.
Qed.

Lemma call_welcomed c e w :
  welcomed (mgr w) -> welcomed (mgr (snd (call c e w))).
Proof.
  intros H. destruct c; simpl.
  - unfold bind, ret. simpl. now apply connect_welcomed.
  - rewrite disconnect_mgr. now apply welcomed_unregistered.
  - unfold bind, ret. simpl. now apply send_welcomed.
  - now apply broadcast_welcomed.
  - unfold heartbeat_iteration. step_M. now apply broadcast_welcomed.
Qed.

Lemma total_message_count_bound (metadata : PyDict.dict Metadata) :
  (forall k md, In (k, md) metadata -> (1 <= message_count md)%Z) ->
  (Z.of_nat (length metadata) <= total_message_count metadata)%Z.
Proof.
  unfold total_message_count.
  assert (Hgen : forall (l : list Z) (acc : Z),
            (forall z, In z l -> (1 <= z)%Z) ->
            (acc + Z.of_nat (length l) <= fold_left Z.add l acc)%Z).
  { induction l as [|z l IH]; intros acc Hl; simpl; [lia|].
    pose proof (Hl z (or_introl eq_refl)).
    etransitivity; [|apply IH; intros y Hy; apply Hl; now right]. lia. }
  intros H. specialize (Hgen (List.map (fun kv => message_count (snd kv)) metadata) 0%Z).
  rewrite List.length_map in Hgen. apply Hgen.
  intros z Hz. apply List.in_map_iff in Hz as ([k md] & <- & Hin). simpl.
  exact (H _ _ Hin).
Qed.

(** X2. After any sequence of calls every registered client has been sent at
    least one message, its welcome message: no metadata entry counts less
    than one message, so the total the statistics report is at least the
    number of connections. *)
Theorem X2_every_client_welcomed (N : nat) (calls : list (Env * Call)) :
  let w := run calls (initial_world N) in
  (forall client_id md,
     PyDict.get client_id (connection_metadata (mgr w)) = Some md ->
     (1 <= message_count md)%Z) /\
  (Z.of_nat (length (active_connections (mgr w))) <=
   total_message_count (connection_metadata (mgr w)))%Z.
Proof.
  cbv zeta.
  assert (H : forall w0, welcomed (mgr w0) -> welcomed (mgr (run calls w0))).
  { induction calls as [|[e c] calls IH]; intros w0 H0; simpl; auto.
    apply IH. now apply call_welcomed. }
  assert (Hw : welcomed (mgr (run calls (initial_world N))))
    by (apply H; intros k md; discriminate).
  pose proof (reachable_consistent N calls) as Hc.
  split; [exact Hw|].
  replace (length (active_connections (mgr (run calls (initial_world N)))))
    with (length (connection_metadata (mgr (run calls (initial_world N)))))
    by (rewrite <- !keys_length; now rewrite (cons_keys _ _ Hc)).
  apply total_message_count_bound. intros k md Hin. apply (Hw k).
  apply dict_In_get; [|exact Hin].
  rewrite <- (cons_keys _ _ Hc). exact (cons_nodup _ _ Hc).
Qed.
